(** * backup_engine.py: the deduplicating backup engine, embedded in Rocq

    The engine of [src/backup_engine.py] keeps three SQLite tables (jobs,
    backups, chunks).  Every method opens a connection, runs a handful of
    statements and commits; the embedding below passes the three tables
    explicitly, as lists of rows in rowid order, and returns the committed
    tables.  What the engine takes from the Python library ([hashlib],
    [zlib]) is modelled first. *)

From Stdlib Require Import String Ascii ZArith QArith Lia Bool.
From Stdlib Require Import List.
From Stdlib Require Import Permutation Sorted.
From Stdlib Require Import Init.Byte Strings.Byte.
From Stdlib Require Import DecimalString.
Import ListNotations.

Local Open Scope string_scope.
Local Open Scope list_scope.
Local Open Scope Z_scope.

(** [bytes] objects. *)
Definition bytes := list byte.

Definition len {A : Type} (l : list A) : Z := Z.of_nat (length l).

Definition Z_of_byte (b : byte) : Z := Z.of_N (Byte.to_N b).

Definition byte_of_Z (z : Z) : byte :=
  match Byte.of_N (Z.to_N (z mod 256)) with
  | Some b => b
  | None => x00
  end.

(** [str.encode()] on text whose characters are all below 256. *)
Definition encode (s : string) : bytes := list_byte_of_string s.

(** ** hashlib *)
Module Hashlib.

Definition w32 (z : Z) : Z := z mod 4294967296.

Definition add32 (x y : Z) : Z := w32 (x + y).

Definition not32 (x : Z) : Z := 4294967295 - x.

Definition rotr32 (n x : Z) : Z :=
  Z.lor (Z.shiftr x n) (w32 (Z.shiftl x (32 - n))).

Definition rotl32 (n x : Z) : Z :=
  Z.lor (w32 (Z.shiftl x n)) (Z.shiftr x (32 - n)).

Definition hex_digit (z : Z) : ascii :=
  if z <? 10 then ascii_of_nat (Z.to_nat (48 + z))
  else ascii_of_nat (Z.to_nat (87 + z)).

Definition hex_of_byte (z : Z) (rest : string) : string :=
  String (hex_digit (z / 16)) (String (hex_digit (z mod 16)) rest).

Fixpoint hex_of_bytes (l : list Z) : string :=
  match l with
  | [] => EmptyString
  | z :: l' => hex_of_byte z (hex_of_bytes l')
  end.

(** Big-endian and little-endian byte strings of [n] bytes. *)
Fixpoint be_bytes (n : nat) (z : Z) : list Z :=
  match n with
  | O => []
  | S n' => (Z.shiftr z (8 * Z.of_nat n')) mod 256 :: be_bytes n' z
  end.

Fixpoint le_bytes (n : nat) (z : Z) : list Z :=
  match n with
  | O => []
  | S n' => z mod 256 :: le_bytes n' (Z.shiftr z 8)
  end.

Fixpoint be_word (l : list Z) (acc : Z) : Z :=
  match l with
  | [] => acc
  | b :: l' => be_word l' (acc * 256 + b)
  end.

Fixpoint le_word (l : list Z) : Z :=
  match l with
  | [] => 0
  | b :: l' => b + 256 * le_word l'
  end.

(** The message followed by the byte 0x80 and zero bytes up to 56 modulo 64;
    the 8 bytes of the bit length are appended by the caller, in its own byte
    order. *)
Definition pad_zeros (n : Z) : list Z :=
  repeat 0 (Z.to_nat ((55 - n) mod 64)).

(** Cuts a list into runs of [size] items ([fuel] bounds the number of runs). *)
Fixpoint blocks {A : Type} (fuel : nat) (size : nat) (l : list A) : list (list A) :=
  match fuel with
  | O => []
  | S fuel' =>
      match l with
      | [] => []
      | _ => firstn size l :: blocks fuel' size (skipn size l)
      end
  end.

Definition words_of (conv : list Z -> Z) (block : list Z) : list Z :=
  map conv (blocks 16 4 block).

(** *** SHA-256 (FIPS 180-4) *)

Definition sha256_K : list Z :=
  [ 1116352408; 1899447441; 3049323471; 3921009573; 961987163; 1508970993;
    2453635748; 2870763221; 3624381080; 310598401; 607225278; 1426881987;
    1925078388; 2162078206; 2614888103; 3248222580; 3835390401; 4022224774;
    264347078; 604807628; 770255983; 1249150122; 1555081692; 1996064986;
    2554220882; 2821834349; 2952996808; 3210313671; 3336571891; 3584528711;
    113926993; 338241895; 666307205; 773529912; 1294757372; 1396182291;
    1695183700; 1986661051; 2177026350; 2456956037; 2730485921; 2820302411;
    3259730800; 3345764771; 3516065817; 3600352804; 4094571909; 275423344;
    430227734; 506948616; 659060556; 883997877; 958139571; 1322822218;
    1537002063; 1747873779; 1955562222; 2024104815; 2227730452; 2361852424;
    2428436474; 2756734187; 3204031479; 3329325298 ].

Definition sha256_H0 : list Z :=
  [ 1779033703; 3144134277; 1013904242; 2773480762;
    1359893119; 2600822924; 528734635; 1541459225 ].

Definition small_sigma0 (x : Z) : Z :=
  Z.lxor (Z.lxor (rotr32 7 x) (rotr32 18 x)) (Z.shiftr x 3).

Definition small_sigma1 (x : Z) : Z :=
  Z.lxor (Z.lxor (rotr32 17 x) (rotr32 19 x)) (Z.shiftr x 10).

Definition big_sigma0 (x : Z) : Z :=
  Z.lxor (Z.lxor (rotr32 2 x) (rotr32 13 x)) (rotr32 22 x).

Definition big_sigma1 (x : Z) : Z :=
  Z.lxor (Z.lxor (rotr32 6 x) (rotr32 11 x)) (rotr32 25 x).

Definition choose (x y z : Z) : Z :=
  Z.lxor (Z.land x y) (Z.land (not32 x) z).

Definition majority (x y z : Z) : Z :=
  Z.lxor (Z.lxor (Z.land x y) (Z.land x z)) (Z.land y z).

(** The message schedule, most recent word first: [rev_w] holds
    W(t-1), W(t-2), ... *)
Fixpoint sha256_schedule (n : nat) (rev_w : list Z) : list Z :=
  match n with
  | O => rev_w
  | S n' =>
      let wt :=
        add32 (add32 (small_sigma1 (nth 1 rev_w 0)) (nth 6 rev_w 0))
              (add32 (small_sigma0 (nth 14 rev_w 0)) (nth 15 rev_w 0)) in
      sha256_schedule n' (wt :: rev_w)
  end.

Definition sha256_round (st : list Z) (kw : Z * Z) : list Z :=
  match st with
  | [a; b; c; d; e; f; g; h] =>
      let t1 := add32 (add32 (add32 h (big_sigma1 e)) (choose e f g))
                      (add32 (fst kw) (snd kw)) in
      let t2 := add32 (big_sigma0 a) (majority a b c) in
      [add32 t1 t2; a; b; c; add32 d t1; e; f; g]
  | _ => st
  end.

Definition sha256_block (h : list Z) (block : list Z) : list Z :=
  let w := rev (sha256_schedule 48 (rev (words_of (fun l => be_word l 0) block))) in
  let st := fold_left sha256_round (combine sha256_K w) h in
  map (fun p => add32 (fst p) (snd p)) (combine h st).

Definition sha256_words (msg : list Z) : list Z :=
  let n := len msg in
  let padded := msg ++ 128 :: pad_zeros n ++ be_bytes 8 (8 * n) in
  fold_left sha256_block (blocks (S (length padded)) 64 padded) sha256_H0.

(** [hashlib.sha256(data).hexdigest()] *)
Definition sha256_hexdigest (data : bytes) : string :=
  hex_of_bytes (flat_map (be_bytes 4) (sha256_words (map Z_of_byte data))).

(** *** MD5 (RFC 1321) *)

Definition md5_T : list Z :=
  [ 3614090360; 3905402710; 606105819; 3250441966; 4118548399; 1200080426;
    2821735955; 4249261313; 1770035416; 2336552879; 4294925233; 2304563134;
    1804603682; 4254626195; 2792965006; 1236535329; 4129170786; 3225465664;
    643717713; 3921069994; 3593408605; 38016083; 3634488961; 3889429448;
    568446438; 3275163606; 4107603335; 1163531501; 2850285829; 4243563512;
    1735328473; 2368359562; 4294588738; 2272392833; 1839030562; 4259657740;
    2763975236; 1272893353; 4139469664; 3200236656; 681279174; 3936430074;
    3572445317; 76029189; 3654602809; 3873151461; 530742520; 3299628645;
    4096336452; 1126891415; 2878612391; 4237533241; 1700485571; 2399980690;
    4293915773; 2240044497; 1873313359; 4264355552; 2734768916; 1309151649;
    4149444226; 3174756917; 718787259; 3951481745 ].

Definition md5_shift (i : Z) : Z :=
  nth (Z.to_nat (4 * (i / 16) + i mod 4))
      [7; 12; 17; 22; 5; 9; 14; 20; 4; 11; 16; 23; 6; 10; 15; 21] 0.

Definition md5_mix (i b c d : Z) : Z :=
  if i <? 16 then Z.lor (Z.land b c) (Z.land (not32 b) d)
  else if i <? 32 then Z.lor (Z.land d b) (Z.land (not32 d) c)
  else if i <? 48 then Z.lxor (Z.lxor b c) d
  else Z.lxor c (Z.lor b (not32 d)).

Definition md5_index (i : Z) : Z :=
  if i <? 16 then i
  else if i <? 32 then (5 * i + 1) mod 16
  else if i <? 48 then (3 * i + 5) mod 16
  else (7 * i) mod 16.

Definition md5_round (m : list Z) (st : list Z) (it : Z * Z) : list Z :=
  match st with
  | [a; b; c; d] =>
      let i := fst it in
      let f := add32 (add32 (md5_mix i b c d) a)
                     (add32 (snd it) (nth (Z.to_nat (md5_index i)) m 0)) in
      [d; add32 b (rotl32 (md5_shift i) f); b; c]
  | _ => st
  end.

Definition md5_block (h : list Z) (block : list Z) : list Z :=
  let m := words_of le_word block in
  let st := fold_left (md5_round m)
              (combine (map Z.of_nat (seq 0 64)) md5_T) h in
  map (fun p => add32 (fst p) (snd p)) (combine h st).

Definition md5_words (msg : list Z) : list Z :=
  let n := len msg in
  let padded := msg ++ 128 :: pad_zeros n ++ le_bytes 8 (8 * n) in
  fold_left md5_block (blocks (S (length padded)) 64 padded)
            [1732584193; 4023233417; 2562383102; 271733878].

(** [hashlib.md5(data).hexdigest()] *)
Definition md5_hexdigest (data : bytes) : string :=
  hex_of_bytes (flat_map (le_bytes 4) (md5_words (map Z_of_byte data))).

End Hashlib.

(** ** zlib

    [zlib.compress(data, 6)] wraps a DEFLATE stream (RFC 1951) in the zlib
    container (RFC 1950): the two header bytes 0x78 0x9c, the stream, and the
    Adler-32 checksum of the input, big-endian.  The DEFLATE matcher is not
    modelled.  On an input of fewer than three bytes no match exists (the
    shortest match is three bytes long) and zlib emits one final block of
    literals coded with the fixed Huffman code; [compress_literals] is that
    stream. *)
Module Zlib.

Definition adler32 (data : list Z) : Z :=
  let step (s : Z * Z) (b : Z) :=
    let a := (fst s + b) mod 65521 in (a, (snd s + a) mod 65521) in
  let s := fold_left step data (1, 0) in
  Z.lor (Z.shiftl (snd s) 16) (fst s).

(** The [n] low bits of [z], most significant first (Huffman codes are
    written that way). *)
Fixpoint code_bits (n : nat) (z : Z) : list bool :=
  match n with
  | O => []
  | S n' => Z.testbit z (Z.of_nat n') :: code_bits n' z
  end.

(** Fixed Huffman code of a literal byte (RFC 1951, 3.2.6). *)
Definition literal_bits (b : Z) : list bool :=
  if b <? 144 then code_bits 8 (48 + b) else code_bits 9 (400 + (b - 144)).

Definition end_of_block_bits : list bool := code_bits 7 0.

(** Bits fill each byte from its least significant bit. *)
Fixpoint byte_of_bits (bits : list bool) : Z :=
  match bits with
  | [] => 0
  | b :: bits' => Z.b2z b + 2 * byte_of_bits bits'
  end.

Definition pack_bits (bits : list bool) : list Z :=
  map byte_of_bits (Hashlib.blocks (S (length bits)) 8 bits).

Definition deflate_literals (data : list Z) : list Z :=
  pack_bits ([true; true; false] ++ flat_map literal_bits data ++ end_of_block_bits).

Definition compress_literals (data : bytes) : bytes :=
  let d := map Z_of_byte data in
  map byte_of_Z ([120; 156] ++ deflate_literals d ++ Hashlib.be_bytes 4 (adler32 d)).

End Zlib.

(** ** datetime

    A naive [datetime], such as [datetime.utcnow()] returns, is kept as its
    number of microseconds since 1970-01-01T00:00:00.  What [timestamp()] and
    [fromtimestamp] make of it depends on the time zone of the host, and is
    left to the host (see [clock] and [list_backups]). *)
Module Datetime.

Definition digit (z : Z) : ascii := ascii_of_nat (Z.to_nat (48 + z mod 10)).

Fixpoint digits (n : nat) (z : Z) (rest : string) : string :=
  match n with
  | O => rest
  | S n' => digits n' (z / 10) (String (digit z) rest)
  end.

(** Day number (days since 1970-01-01) to year, month and day of the
    proleptic Gregorian calendar. *)
Definition civil_from_days (days : Z) : Z * Z * Z :=
  let z := days + 719468 in
  let era := z / 146097 in
  let doe := z - era * 146097 in
  let yoe := (doe - doe / 1460 + doe / 36524 - doe / 146096) / 365 in
  let doy := doe - (365 * yoe + yoe / 4 - yoe / 100) in
  let mp := (5 * doy + 2) / 153 in
  let d := doy - (153 * mp + 2) / 5 + 1 in
  let m := if mp <? 10 then mp + 3 else mp - 9 in
  (yoe + era * 400 + (if m <=? 2 then 1 else 0), m, d).

Definition day_number (us : Z) : Z := us / 1000000 / 86400.

(** [datetime.isoformat()] *)
Definition isoformat (us : Z) : string :=
  let secs := (us / 1000000) mod 86400 in
  let micro := us mod 1000000 in
  let '(y, m, d) := civil_from_days (day_number us) in
  digits 4 y (String "-" (digits 2 m (String "-" (digits 2 d (String "T"
    (digits 2 (secs / 3600) (String ":" (digits 2 (secs mod 3600 / 60) (String ":"
      (digits 2 (secs mod 60)
         (if micro =? 0 then EmptyString else String "." (digits 6 micro EmptyString)))))))))))).

(** Mondays start a calendar week; day 0 was a Thursday. *)
Definition calendar_week (us : Z) : Z := (day_number us + 3) / 7.

Definition calendar_month (us : Z) : Z :=
  let '(y, m, _) := civil_from_days (day_number us) in 12 * y + m.

End Datetime.

Arguments Hashlib.sha256_hexdigest : simpl never.
Arguments Hashlib.md5_hexdigest : simpl never.
Arguments Datetime.isoformat : simpl never.

(** ** Exceptions

    A method either returns or raises.  A run that raises never reaches
    [conn.commit()], so the tables stay as they were. *)
Inductive exn : Type :=
  | IntegrityError     (* sqlite3: a PRIMARY KEY value is already in the table *)
  | OperationalError   (* sqlite3: the statement does not parse *)
  | OSError.           (* pathlib, open(): the host refuses the path or the file
                          (FileExistsError, PermissionError, ... are OSErrors) *)

Inductive outcome (A : Type) : Type :=
  | Returned (a : A)
  | Raised (e : exn).

Arguments Returned {A} a.
Arguments Raised {A} e.

Definition bind {A B : Type} (m : outcome A) (k : A -> outcome B) : outcome B :=
  match m with
  | Returned a => k a
  | Raised e => Raised e
  end.

Notation "x <- m ;; k" := (bind m (fun x => k))
  (at level 61, m at next level, right associativity).

(** A [for] loop whose body may raise. *)
Fixpoint for_each {A S : Type} (body : S -> A -> outcome S) (l : list A) (st : S)
  : outcome S :=
  match l with
  | [] => Returned st
  | x :: l' => st' <- body st x ;; for_each body l' st'
  end.

(** ** Python dictionaries with string keys and integer values

    Keys are kept in insertion order, as [dict] and [json.dumps] keep them. *)
Definition dict := list (string * Z).

Fixpoint dict_get (d : dict) (k : string) (default : Z) : Z :=
  match d with
  | [] => default
  | (k', v) :: d' => if (k' =? k)%string then v else dict_get d' k default
  end.

Fixpoint dict_set (d : dict) (k : string) (v : Z) : dict :=
  match d with
  | [] => [(k, v)]
  | (k', v') :: d' =>
      if (k' =? k)%string then (k', v) :: d' else (k', v') :: dict_set d' k v
  end.

Definition keys (d : dict) : list string := map fst d.

Definition sum_Z (l : list Z) : Z := fold_right Z.add 0 l.

(** [l[n:]] *)
Definition slice_from {A : Type} (n : Z) (l : list A) : list A :=
  if n <? 0 then skipn (Z.to_nat (len l + n)) l else skipn (Z.to_nat n) l.

(** ** The tables

    One record per table, with the columns of [_init_db].  The JSON columns
    ([source_paths], [exclude_patterns], [chunk_ids], [references]) are kept
    decoded.  A [REAL] timestamp is the number [timestamp()] returned, counted
    in microseconds (the resolution of [datetime]; the conversion to seconds
    keeps the order), and the [REAL] dedup ratio is the exact quotient that
    the float division rounds. *)

Record job_row : Type := {
  job_id : string;
  job_name : string;
  job_source_paths : list string;
  job_exclude_patterns : list string;
  job_destination : string;
  job_schedule : string;
  job_compression : string;
  job_last_run : option Z;
  job_size_bytes : Z;
  job_status : string
}.

Record backup_row : Type := {
  backup_id : string;
  backup_job_id : string;
  backup_timestamp : Z;
  backup_size_bytes : Z;
  backup_dedup_ratio : Q;
  backup_chunk_ids : dict
}.

Record chunk_row : Type := {
  chunk_id : string;
  chunk_sha256 : string;
  chunk_size : Z;
  chunk_compressed_size : Z;
  chunk_references : dict
}.

Record database : Type := {
  jobs : list job_row;
  backups : list backup_row;
  chunks : list chunk_row
}.

(** [SELECT * FROM jobs WHERE id = ?] then [fetchone()] *)
Definition select_job (db : database) (id : string) : option job_row :=
  find (fun j => (job_id j =? id)%string) (jobs db).

(** [SELECT ... FROM backups WHERE id = ?] then [fetchone()] *)
Definition select_backup (db : database) (id : string) : option backup_row :=
  find (fun b => (backup_id b =? id)%string) (backups db).

(** [SELECT ... FROM chunks WHERE sha256 = ?] then [fetchone()] *)
Definition select_chunk (rows : list chunk_row) (sha256 : string) : option chunk_row :=
  find (fun c => (chunk_sha256 c =? sha256)%string) rows.

(** [INSERT INTO chunks VALUES ...]: [id] is the primary key. *)
Definition insert_chunk (rows : list chunk_row) (row : chunk_row)
  : outcome (list chunk_row) :=
  if existsb (fun c => (chunk_id c =? chunk_id row)%string) rows
  then Raised IntegrityError
  else Returned (rows ++ [row]).

(** [INSERT INTO backups VALUES ...]: [id] is the primary key. *)
Definition insert_backup (rows : list backup_row) (row : backup_row)
  : outcome (list backup_row) :=
  if existsb (fun b => (backup_id b =? backup_id row)%string) rows
  then Raised IntegrityError
  else Returned (rows ++ [row]).

(** [DELETE FROM backups WHERE id = ?] *)
Definition delete_backup (rows : list backup_row) (id : string) : list backup_row :=
  filter (fun b => negb (backup_id b =? id)%string) rows.

(** Whether the id of a row is one of [ids]. *)
Definition id_in (ids : list string) (b : backup_row) : bool :=
  existsb (fun id => (backup_id b =? id)%string) ids.

(** [ORDER BY timestamp DESC]: a row goes in front of the first row that is
    strictly older.  Rows of equal timestamp stay in rowid order (SQLite leaves
    their order open). *)
Fixpoint insert_desc (b : backup_row) (sorted : list backup_row) : list backup_row :=
  match sorted with
  | [] => [b]
  | b' :: rest =>
      if backup_timestamp b' <? backup_timestamp b then b :: sorted
      else b' :: insert_desc b rest
  end.

Definition order_by_timestamp_desc (rows : list backup_row) : list backup_row :=
  fold_left (fun sorted b => insert_desc b sorted) rows [].

(** ** The host: files and clock *)

(** What the file system shows of a source path.  [Path(src_path).exists()]
    raises for a path the host cannot examine (a name that is too long, a
    directory that may not be searched); it returns [False], which is [None]
    here, for a path that is not there; otherwise the run goes through the
    files that [os.walk] reaches, in its order, each with what reading it to
    its end gives ([None] when [open] or a read raises).  A walk that raises
    ends the run as [exists()] raising does, with nothing committed, and is
    [Raised] here too. *)
Definition file_system :=
  string -> outcome (option (list (string * option bytes))).

(** The three [datetime.utcnow()] readings of one [run_backup]: the first as
    the naive datetime whose [isoformat()] goes into the backup id, the other
    two as the numbers [timestamp()] makes of them on the host. *)
Record clock : Type := {
  utcnow_id : Z;
  utcnow_backup : Z;
  utcnow_job : Z
}.

(** What the host does for [restore] in an output directory:
    [Path(dir).mkdir(parents=True, exist_ok=True)], which raises when [dir] or
    one of its parents is a file, or may not be created; and
    [open(dir / name, 'wb')], which raises when the file may not be written
    (the 22 bytes written next are taken to reach a file that is open). *)
Record output_host : Type := {
  mkdir : string -> outcome unit;
  open_wb : string -> string -> outcome unit
}.

(** ** BackupEngine *)

Definition CHUNK_SIZE : nat := 4096.

(** The successive results of [f.read(CHUNK_SIZE)] up to the first empty one. *)
Fixpoint read_chunks (fuel : nat) (content : bytes) : list bytes :=
  match fuel with
  | O => []
  | S fuel' =>
      match firstn CHUNK_SIZE content with
      | [] => []
      | chunk_data => chunk_data :: read_chunks fuel' (skipn CHUNK_SIZE content)
      end
  end.

Definition file_chunks (content : bytes) : list bytes :=
  read_chunks (S (length content)) content.

(** The locals of [run_backup] that its loops update, with the chunks table as
    the open transaction sees it. *)
Record scan : Type := {
  scan_chunks : list chunk_row;
  chunks_used : dict;
  total_size : Z;
  compressed_size : Z
}.

(** [create_job], called when the clock reads [now]. *)
Definition create_job (now : Z) (db : database) (name : string)
  (source_paths : list string) (destination : string)
  (exclude_patterns : option (list string)) (compression schedule : string)
  : outcome (string * database) :=
  let exclude_patterns :=
    match exclude_patterns with
    | Some patterns => patterns
    | None => []
    end in
  let id :=
    substring 0 12
      (Hashlib.md5_hexdigest (encode (name ++ Datetime.isoformat now)%string)) in
  if existsb (fun j => (job_id j =? id)%string) (jobs db)
  then Raised IntegrityError
  else Returned
         (id,
          {| jobs :=
               jobs db ++
               [{| job_id := id; job_name := name;
                   job_source_paths := source_paths;
                   job_exclude_patterns := exclude_patterns;
                   job_destination := destination; job_schedule := schedule;
                   job_compression := compression; job_last_run := None;
                   job_size_bytes := 0; job_status := "idle" |}];
             backups := backups db;
             chunks := chunks db |}).

(** [hashlib.md5(f"{job_id}{datetime.utcnow().isoformat()}".encode()).hexdigest()[:12]] *)
Definition backup_id_of (job : string) (clk : clock) : string :=
  substring 0 12
    (Hashlib.md5_hexdigest
       (encode (job ++ Datetime.isoformat (utcnow_id clk))%string)).

(** The id [run_backup] gives the row of a digest. *)
Definition chunk_id_of (sha256 : string) : string :=
  ("chunk_" ++ substring 0 8 sha256)%string.

Section Recorder.

(** [zlib.compress(chunk_data, 6)]; [None] when it raises. *)
Variable zlib_compress : bytes -> option bytes.

Definition compressed_or_raw (chunk_data : bytes) : bytes :=
  match zlib_compress chunk_data with
  | Some compressed => compressed
  | None => chunk_data
  end.

(** The row [run_backup] inserts for a chunk that is not in the table. *)
Definition new_chunk_row (chunk_data : bytes) : chunk_row :=
  let sha256 := Hashlib.sha256_hexdigest chunk_data in
  {| chunk_id := chunk_id_of sha256;
     chunk_sha256 := sha256;
     chunk_size := len chunk_data;
     chunk_compressed_size := len (compressed_or_raw chunk_data);
     chunk_references := [] |}.

(** The body of the [while True] loop, for one non-empty [chunk_data]. *)
Definition scan_chunk (st : scan) (chunk_data : bytes) : outcome scan :=
  let sha256 := Hashlib.sha256_hexdigest chunk_data in
  let total := total_size st + len chunk_data in
  match select_chunk (scan_chunks st) sha256 with
  | Some existing =>
      Returned {| scan_chunks := scan_chunks st;
                  chunks_used :=
                    dict_set (chunks_used st) sha256
                             (dict_get (chunks_used st) sha256 0 + 1);
                  total_size := total;
                  compressed_size :=
                    compressed_size st + chunk_compressed_size existing |}
  | None =>
      rows <- insert_chunk (scan_chunks st) (new_chunk_row chunk_data) ;;
      Returned {| scan_chunks := rows;
                  chunks_used := dict_set (chunks_used st) sha256 1;
                  total_size := total;
                  compressed_size :=
                    compressed_size st + len (compressed_or_raw chunk_data) |}
  end.

(** [with open(file_path, 'rb') as f: ...] *)
Definition scan_file (st : scan) (file : string * option bytes) : outcome scan :=
  match snd file with
  | None => Raised OSError
  | Some content => for_each scan_chunk (file_chunks content) st
  end.

(** [if Path(src_path).exists(): for root, dirs, files in os.walk(src_path): ...] *)
Definition scan_source (fs : file_system) (st : scan) (src_path : string)
  : outcome scan :=
  found <- fs src_path ;;
  match found with
  | None => Returned st
  | Some files => for_each scan_file files st
  end.

(** [run_backup] returns [None] for an unknown job and the new backup id
    otherwise; the tables it returns are the committed ones. *)
Definition run_backup (fs : file_system) (clk : clock) (db : database)
  (job : string) : outcome (option string * database) :=
  match select_job db job with
  | None => Returned (None, db)
  | Some job_row =>
      let source_paths := job_source_paths job_row in
      let id := backup_id_of job clk in
      st <- for_each (scan_source fs) source_paths
              {| scan_chunks := chunks db; chunks_used := [];
                 total_size := 0; compressed_size := 0 |} ;;
      let dedup_ratio :=
        if 0 <? total_size st
        then Qmake (compressed_size st) (Z.to_pos (total_size st))
        else 0%Q in
      rows <- insert_backup (backups db)
                {| backup_id := id; backup_job_id := job;
                   backup_timestamp := utcnow_backup clk;
                   backup_size_bytes := total_size st;
                   backup_dedup_ratio := dedup_ratio;
                   backup_chunk_ids := chunks_used st |} ;;
      Returned
        (Some id,
         {| jobs :=
              map (fun j =>
                     if (job_id j =? job)%string
                     then {| job_id := job_id j; job_name := job_name j;
                             job_source_paths := job_source_paths j;
                             job_exclude_patterns := job_exclude_patterns j;
                             job_destination := job_destination j;
                             job_schedule := job_schedule j;
                             job_compression := job_compression j;
                             job_last_run := Some (utcnow_job clk);
                             job_size_bytes := total_size st;
                             job_status := "completed" |}
                     else j) (jobs db);
            backups := rows;
            chunks := scan_chunks st |})
  end.

(** Two properties of the loop state that the loops keep.  A digest without
    a row is not counted yet; and [scan_effect st xs st'] is what scanning the
    chunks [xs] from [st] to [st'] does to the table and to the counts. *)
Definition unseen_uncounted (st : scan) : Prop :=
  forall d, select_chunk (scan_chunks st) d = None ->
            dict_get (chunks_used st) d 0 = 0.

Definition scan_effect (st : scan) (xs : list bytes) (st' : scan) : Prop :=
  exists news,
    scan_chunks st' = scan_chunks st ++ map new_chunk_row news /\
    (forall x, In x news ->
               In x xs /\
               select_chunk (scan_chunks st) (Hashlib.sha256_hexdigest x) = None) /\
    NoDup (map Hashlib.sha256_hexdigest news) /\
    (forall d, dict_get (chunks_used st') d 0
               = dict_get (chunks_used st) d 0
                 + Z.of_nat (count_occ string_dec
                               (map Hashlib.sha256_hexdigest xs) d)) /\
    (forall x, In x xs ->
               select_chunk (scan_chunks st') (Hashlib.sha256_hexdigest x) <> None) /\
    total_size st' = total_size st + sum_Z (map len xs).

End Recorder.

(** One entry of the list [list_backups] returns. *)
Record backup_info : Type := {
  info_id : string;
  info_job_id : string;
  info_timestamp : string;
  info_size_bytes : Z;
  info_dedup_ratio : Q
}.

(** The rows the cursor of [list_backups] yields: [if job_id:] is false for
    [None] and for the empty string. *)
Definition list_backups_rows (db : database) (job : option string)
  : list backup_row :=
  match job with
  | Some j =>
      if (j =? "")%string then order_by_timestamp_desc (backups db)
      else order_by_timestamp_desc
             (filter (fun b => (backup_job_id b =? j)%string) (backups db))
  | None => order_by_timestamp_desc (backups db)
  end.

(** One entry: [datetime.fromtimestamp(row[2]).isoformat()] and the other
    four fields.  The text [fromtimestamp_isoformat] gives for a stored
    timestamp is the host's: it follows the local time zone and the rounding
    of the stored float. *)
Definition info_of_row (fromtimestamp_isoformat : Z -> string) (row : backup_row)
  : backup_info :=
  {| info_id := backup_id row;
     info_job_id := backup_job_id row;
     info_timestamp := fromtimestamp_isoformat (backup_timestamp row);
     info_size_bytes := backup_size_bytes row;
     info_dedup_ratio := backup_dedup_ratio row |}.

Definition list_backups (fromtimestamp_isoformat : Z -> string) (db : database)
  (job : option string) : list backup_info :=
  map (info_of_row fromtimestamp_isoformat) (list_backups_rows db job).

(** The file [restore] writes for a chunk row it finds. *)
Definition CHUNK_DATA_PLACEHOLDER : bytes := encode "CHUNK_DATA_PLACEHOLDER".

(** [f"restored_{sha256[:8]}"] *)
Definition restored_name (sha256 : string) : string :=
  ("restored_" ++ substring 0 8 sha256)%string.

(** The loop of [restore] over the manifest: how it ends, and the files it
    has written by then, in order, as (name under [output_dir], content).  It
    stops at the first file the host does not let it write. *)
Fixpoint restore_chunks (host : output_host) (rows : list chunk_row)
  (output_dir : string) (chunk_refs : dict) : outcome unit * list (string * bytes) :=
  match chunk_refs with
  | [] => (Returned tt, [])
  | (sha256, _) :: rest =>
      match select_chunk rows sha256 with
      | Some _ =>
          match open_wb host output_dir (restored_name sha256) with
          | Returned _ =>
              let r := restore_chunks host rows output_dir rest in
              (fst r, (restored_name sha256, CHUNK_DATA_PLACEHOLDER) :: snd r)
          | Raised e => (Raised e, [])
          end
      | None => restore_chunks host rows output_dir rest
      end
  end.

(** What a call of [restore] has done when it ends: what it returned or
    raised; whether its [mkdir] returned, so that [output_dir] is a directory,
    made by the call if it was not there; and the files it has written. *)
Record restored : Type := {
  restore_result : outcome bool;
  restore_made_dir : bool;
  restore_writes : list (string * bytes)
}.

(** [restore] creates [output_dir] before it looks the backup up, and raises
    when it cannot.  After that it returns [False] for an unknown id, and for
    a known one writes a file per manifest digest that has a row and returns
    [True]. *)
Definition restore (host : output_host) (db : database) (id output_dir : string)
  : restored :=
  match mkdir host output_dir with
  | Returned _ =>
      match select_backup db id with
      | None =>
          {| restore_result := Returned false; restore_made_dir := true;
             restore_writes := [] |}
      | Some row =>
          let r := restore_chunks host (chunks db) output_dir
                     (backup_chunk_ids row) in
          {| restore_result := _ <- fst r ;; Returned true;
             restore_made_dir := true;
             restore_writes := snd r |}
      end
  | Raised e =>
      {| restore_result := Raised e; restore_made_dir := false;
         restore_writes := [] |}
  end.

(** The content of [name] in a directory that was empty before the writes. *)
Definition read_back (writes : list (string * bytes)) (name : string)
  : option bytes :=
  option_map snd (find (fun w => (fst w =? name)%string) (rev writes)).

(** [prune] returns [len(to_delete)] and commits the deletions. *)
Definition prune (db : database) (job : string)
  (keep_daily keep_weekly keep_monthly : Z) : Z * database :=
  let ids :=
    map backup_id
        (order_by_timestamp_desc
           (filter (fun b => (backup_job_id b =? job)%string) (backups db))) in
  let to_delete := slice_from (keep_daily + keep_weekly + keep_monthly) ids in
  (len to_delete,
   {| jobs := jobs db;
      backups := fold_left delete_backup to_delete (backups db);
      chunks := chunks db |}).

(** [verify]: [False] for an unknown id and at the first digest without a
    row, [True] when the loop ends. *)
Definition verify (db : database) (id : string) : bool :=
  match select_backup db id with
  | None => false
  | Some row =>
      forallb
        (fun sha256 =>
           match select_chunk (chunks db) sha256 with
           | Some _ => true
           | None => false
           end)
        (keys (backup_chunk_ids row))
  end.

Record stats : Type := {
  total_chunks : Z;
  total_size_bytes : Z;
  compressed_bytes : Z;
  stats_dedup_ratio : Q;
  space_saved_bytes : Z
}.

(** [get_stats]; [SUM] over no rows is [NULL], which [or 0] turns into 0. *)
Definition get_stats (db : database) : stats :=
  let size := sum_Z (map chunk_size (chunks db)) in
  let compressed_total := sum_Z (map chunk_compressed_size (chunks db)) in
  {| total_chunks := len (chunks db);
     total_size_bytes := size;
     compressed_bytes := compressed_total;
     stats_dedup_ratio :=
       if 0 <? size then Qmake compressed_total (Z.to_pos size) else 1%Q;
     space_saved_bytes := size - compressed_total |}.

(** ** Notions the facts are stated with *)

(** A missing digest, in the words of the design: a digest of the backup's
    manifest with no row in the chunks table. *)
Definition missing_digests (db : database) (id : string) : list string :=
  match select_backup db id with
  | None => []
  | Some row =>
      filter (fun d => match select_chunk (chunks db) d with
                       | Some _ => false
                       | None => true
                       end)
             (keys (backup_chunk_ids row))
  end.

(** Removing a chunk from the store by hand:
    [DELETE FROM chunks WHERE sha256 = ?]. *)
Definition remove_chunk (db : database) (sha256 : string) : database :=
  {| jobs := jobs db;
     backups := backups db;
     chunks := filter (fun c => negb (chunk_sha256 c =? sha256)%string) (chunks db) |}.

(** The occurrences of a digest that the manifests of [rows] count. *)
Definition manifest_refs (rows : list backup_row) (sha256 : string) : Z :=
  sum_Z (map (fun b => dict_get (backup_chunk_ids b) sha256 0) rows).

(** The chunks one run reads, in reading order. *)
Definition source_chunks (fs : file_system) (source_paths : list string)
  : list bytes :=
  flat_map
    (fun src_path =>
       match fs src_path with
       | Returned (Some files) =>
           flat_map (fun file : string * option bytes =>
                       match snd file with
                       | Some content => file_chunks content
                       | None => []
                       end) files
       | _ => []
       end)
    source_paths.

(** The host lets every source path be examined, and every file under the
    source paths be read. *)
Definition readable (fs : file_system) (source_paths : list string) : Prop :=
  (forall p, In p source_paths -> exists found, fs p = Returned found) /\
  (forall p files file,
     In p source_paths -> fs p = Returned (Some files) -> In file files ->
     snd file <> None).

(** Chunk ids are the first eight digits of the digest: the chunks [xs] can
    all be inserted when no such id stands for two digests. *)
Definition ids_tell_digests (rows : list chunk_row) (xs : list bytes) : Prop :=
  (forall c x, In c rows -> In x xs ->
               chunk_id c = chunk_id_of (Hashlib.sha256_hexdigest x) ->
               chunk_sha256 c = Hashlib.sha256_hexdigest x) /\
  (forall x y, In x xs -> In y xs ->
               chunk_id_of (Hashlib.sha256_hexdigest x)
               = chunk_id_of (Hashlib.sha256_hexdigest y) ->
               Hashlib.sha256_hexdigest x = Hashlib.sha256_hexdigest y).

Definition rows_with_digest (rows : list chunk_row) (sha256 : string) : nat :=
  length (filter (fun c => (chunk_sha256 c =? sha256)%string) rows).

(** ** Scenarios *)

(** [zlib.compress] on chunks of one or two bytes. *)
Definition zlib_compress_short (chunk_data : bytes) : option bytes :=
  Some (Zlib.compress_literals chunk_data).

Definition empty_db : database := {| jobs := []; backups := []; chunks := [] |}.

(** The job that [create_job "docs" ["/data"] "/backups"] inserts at
    2024-03-04 09:00:00.000321 UTC. *)
Definition docs_job : job_row :=
  {| job_id := "bc59759a35c8"; job_name := "docs";
     job_source_paths := ["/data"]; job_exclude_patterns := [];
     job_destination := "/backups"; job_schedule := "daily";
     job_compression := "lz4"; job_last_run := None;
     job_size_bytes := 0; job_status := "idle" |}.

Definition fresh_db : database :=
  {| jobs := [docs_job]; backups := []; chunks := [] |}.

(** [/data] holds one file, or two files of the same content, or nothing; no
    other path is there. *)
Definition one_file (content : bytes) : file_system :=
  fun p => if (p =? "/data")%string
           then Returned (Some [("/data/one.txt", Some content)])
           else Returned None.

Definition two_files (content : bytes) : file_system :=
  fun p => if (p =? "/data")%string
           then Returned (Some [("/data/one.txt", Some content);
                                ("/data/two.txt", Some content)])
           else Returned None.

Definition empty_directory : file_system :=
  fun p => if (p =? "/data")%string then Returned (Some []) else Returned None.

(** The readings of the four runs behind [week_db], on a host in UTC. *)
Definition monday_mail : clock :=
  {| utcnow_id := 1709550000000000;
     utcnow_backup := 1709550000003300;
     utcnow_job := 1709550000003650 |}.

Definition tuesday_morning : clock :=
  {| utcnow_id := 1709632800000098;
     utcnow_backup := 1709632800003120;
     utcnow_job := 1709632800003544 |}.

Definition wednesday_morning : clock :=
  {| utcnow_id := 1709719200000077;
     utcnow_backup := 1709719200002748;
     utcnow_job := 1709719200003102 |}.

(** 2024-03-04 10:00:00 UTC, and the two readings that follow, on a host in
    UTC, where [timestamp()] gives the reading back. *)
Definition monday_morning : clock :=
  {| utcnow_id := 1709546400000123;
     utcnow_backup := 1709546400004567;
     utcnow_job := 1709546400004911 |}.

(** The persisted tables after a call. *)
Definition tables_after {A : Type} (db : database) (out : outcome (A * database))
  : database :=
  match out with
  | Returned (_, db') => db'
  | Raised _ => db
  end.

Definition digest_a : string :=
  "ca978112ca1bbdcafac231b39a23dc4da786eff8147c4e72b9807785afee48bb".

Definition digest_b : string :=
  "3e23e8160039594a33894f6564e1b1348bbd7a0088d42c4acb73eeaed59c009d".

(** [/data] holds a file of the byte "a" and a file of the byte "b". *)
Definition files_a_b : file_system :=
  fun p => if (p =? "/data")%string
           then Returned (Some [("/data/one.txt", Some (encode "a"));
                                ("/data/two.txt", Some (encode "b"))])
           else Returned None.

Definition backup_a_b : backup_row :=
  {| backup_id := "f170005861f7"; backup_job_id := "bc59759a35c8";
     backup_timestamp := 1709546400004567; backup_size_bytes := 2;
     backup_dedup_ratio := 18 # 2;
     backup_chunk_ids := [(digest_a, 1); (digest_b, 1)] |}.

Definition chunk_a : chunk_row :=
  {| chunk_id := "chunk_ca978112"; chunk_sha256 := digest_a;
     chunk_size := 1; chunk_compressed_size := 9; chunk_references := [] |}.

Definition chunk_b : chunk_row :=
  {| chunk_id := "chunk_3e23e816"; chunk_sha256 := digest_b;
     chunk_size := 1; chunk_compressed_size := 9; chunk_references := [] |}.

(** The tables after backing up [files_a_b] on Monday morning. *)
Definition db_a_b : database :=
  {| jobs :=
       [{| job_id := "bc59759a35c8"; job_name := "docs";
           job_source_paths := ["/data"]; job_exclude_patterns := [];
           job_destination := "/backups"; job_schedule := "daily";
           job_compression := "lz4"; job_last_run := Some 1709546400004911;
           job_size_bytes := 2; job_status := "completed" |}];
     backups := [backup_a_b];
     chunks := [chunk_a; chunk_b] |}.

(** Three backups of the same job, taken on the Monday, Tuesday and Wednesday
    of one week (2024-03-04 to 2024-03-06, 10:00 UTC), in the order they were
    taken; and a backup of another job. *)
Definition backup_at (id job : string) (timestamp : Z) : backup_row :=
  {| backup_id := id; backup_job_id := job; backup_timestamp := timestamp;
     backup_size_bytes := 2; backup_dedup_ratio := 18 # 2;
     backup_chunk_ids := [(digest_a, 1); (digest_b, 1)] |}.

Definition monday_backup : backup_row :=
  backup_at "f170005861f7" "bc59759a35c8" 1709546400004567.

Definition tuesday_backup : backup_row :=
  backup_at "bb69547c7d16" "bc59759a35c8" 1709632800003120.

Definition wednesday_backup : backup_row :=
  backup_at "5bff2346b4d3" "bc59759a35c8" 1709719200002748.

Definition other_job_backup : backup_row :=
  backup_at "2c7b3f0d0935" "4f13d306ef8c" 1709550000003300.

Definition week_db : database :=
  {| jobs :=
       [{| job_id := "bc59759a35c8"; job_name := "docs";
           job_source_paths := ["/data"]; job_exclude_patterns := [];
           job_destination := "/backups"; job_schedule := "daily";
           job_compression := "lz4"; job_last_run := Some 1709719200003102;
           job_size_bytes := 2; job_status := "completed" |};
        {| job_id := "4f13d306ef8c"; job_name := "mail";
           job_source_paths := ["/data"]; job_exclude_patterns := [];
           job_destination := "/backups"; job_schedule := "daily";
           job_compression := "lz4"; job_last_run := Some 1709550000003650;
           job_size_bytes := 2; job_status := "completed" |}];
     backups := [monday_backup; other_job_backup; tuesday_backup; wednesday_backup];
     chunks := [chunk_a; chunk_b] |}.

(** A backup whose manifest counts the chunk "a" twice, as after backing up
    [two_files (encode "a")]. *)
Definition db_a_twice : database :=
  {| jobs := jobs db_a_b;
     backups :=
       [{| backup_id := "f170005861f7"; backup_job_id := "bc59759a35c8";
           backup_timestamp := 1709546400004567; backup_size_bytes := 2;
           backup_dedup_ratio := 18 # 2;
           backup_chunk_ids := [(digest_a, 2)] |}];
     chunks := [chunk_a] |}.

(** ** The retention rule in the words of the design

    Section 4.5 of the design: the most recent [keep_daily] backups are kept;
    among the remainder, the most recent backup of each calendar week is kept,
    for at most [keep_weekly] weeks, and the most recent backup of each
    calendar month, for at most [keep_monthly] months.  [rows] is newest first. *)
Fixpoint design_one_per_bucket (bucket : Z -> Z) (limit : nat) (seen : list Z)
  (rows : list backup_row) : list backup_row :=
  match rows with
  | [] => []
  | b :: rest =>
      let k := bucket (backup_timestamp b) in
      if existsb (Z.eqb k) seen then design_one_per_bucket bucket limit seen rest
      else match limit with
           | O => []
           | S limit' => b :: design_one_per_bucket bucket limit' (k :: seen) rest
           end
  end.

Definition design_retention_kept (rows : list backup_row)
  (keep_daily keep_weekly keep_monthly : nat) : list backup_row :=
  let remainder := skipn keep_daily rows in
  let weekly := design_one_per_bucket Datetime.calendar_week keep_weekly [] remainder in
  let monthly := design_one_per_bucket Datetime.calendar_month keep_monthly [] remainder in
  firstn keep_daily rows ++
  filter (fun b => existsb (fun k => (backup_id k =? backup_id b)%string)
                           (weekly ++ monthly)) remainder.

(** Newest first: no row is followed by a more recent one. *)
Definition newest_first (a b : backup_row) : Prop :=
  backup_timestamp b <= backup_timestamp a.

(** ** The constructor

    [BackupEngine()] creates the directory of the database file and runs
    [_init_db], three [CREATE TABLE IF NOT EXISTS] statements.  SQLite parses a
    statement before it looks at the tables, and its parser does not take a
    reserved word, such as these, for a column name (the engine writes its
    column names in lower case); a statement that parses changes nothing when
    its table is there. *)
Definition sqlite_reserved : list string :=
  ["add"; "all"; "alter"; "and"; "as"; "autoincrement"; "between"; "case";
   "check"; "collate"; "commit"; "create"; "default"; "deferrable"; "delete";
   "distinct"; "drop"; "else"; "escape"; "except"; "exists"; "foreign"; "from";
   "group"; "having"; "in"; "index"; "insert"; "intersect"; "into"; "is";
   "isnull"; "join"; "limit"; "not"; "notnull"; "null"; "on"; "or"; "order";
   "primary"; "references"; "select"; "set"; "table"; "then"; "to";
   "transaction"; "union"; "unique"; "update"; "using"; "values"; "when";
   "where"].

Definition create_table_if_not_exists (columns : list string) : outcome unit :=
  if existsb (fun column => existsb (String.eqb column) sqlite_reserved) columns
  then Raised OperationalError
  else Returned tt.

Definition jobs_columns : list string :=
  ["id"; "name"; "source_paths"; "exclude_patterns"; "destination"; "schedule";
   "compression"; "last_run"; "size_bytes"; "status"].

Definition backups_columns : list string :=
  ["id"; "job_id"; "timestamp"; "size_bytes"; "dedup_ratio"; "chunk_ids"].

Definition chunks_columns : list string :=
  ["id"; "sha256"; "size"; "compressed_size"; "references"].

Definition _init_db : outcome unit :=
  _ <- create_table_if_not_exists jobs_columns ;;
  _ <- create_table_if_not_exists backups_columns ;;
  create_table_if_not_exists chunks_columns.

(** [__init__]; [make_db_dir] is what the host answers to lines 38 to 41,
    which find the home directory and make [.blackroad] under it. *)
Definition BackupEngine (make_db_dir : outcome unit) : outcome unit :=
  _ <- make_db_dir ;; _init_db.

(** ** The command line

    [main] builds the engine, reads [sys.argv], calls one method and prints.
    The result holds the printed lines, the tables, and the files written
    under the output directory of [restore].  A call that raises has no
    result: what it did to the host before that is not kept. *)
Record cli_result : Type := {
  printed : list string;
  tables : database;
  written : list (string * bytes)
}.

Definition usage : string :=
  "Usage: python backup_engine.py [create|run|stats|restore|prune|verify]".

Definition str_of_bool (b : bool) : string := if b then "True" else "False".

Definition str_of_optional (o : option string) : string :=
  match o with
  | Some s => s
  | None => "None"
  end.

Definition str_of_int (z : Z) : string := NilZero.string_of_int (Z.to_int z).

(** A branch of [main] that prints nothing. *)
Definition silent (db : database) : cli_result :=
  {| printed := []; tables := db; written := [] |}.

Section Main.

Variable zlib_compress : bytes -> option bytes.

(** [f"{x:.2f}"] of the float that a ratio is stored as. *)
Variable format_2f : Q -> string.

(** The host, for [restore] and for the constructor. *)
Variable host : output_host.

Variable make_db_dir : outcome unit.

Definition main (fs : file_system) (now : Z) (clk : clock) (argv : list string)
  (db : database) : outcome cli_result :=
  _ <- BackupEngine make_db_dir ;;
  match argv with
  | [] | [_] => Returned {| printed := [usage]; tables := db; written := [] |}
  | _ :: cmd :: args =>
      if (cmd =? "create")%string then
        match args with
        | name :: sources :: rest =>
            let dest := match rest with
                        | d :: _ => d
                        | [] => "/backups"
                        end in
            r <- create_job now db name [sources] dest None "lz4" "daily" ;;
            Returned {| printed := [("Created job: " ++ fst r)%string];
                        tables := snd r; written := [] |}
        | _ => Returned (silent db)
        end
      else if (cmd =? "run")%string then
        match args with
        | job :: _ =>
            r <- run_backup zlib_compress fs clk db job ;;
            Returned {| printed :=
                          [("Backup complete: " ++ str_of_optional (fst r))%string];
                        tables := snd r; written := [] |}
        | [] => Returned (silent db)
        end
      else if (cmd =? "stats")%string then
        let stats := get_stats db in
        Returned
          {| printed :=
               [("Total chunks: " ++ str_of_int (total_chunks stats))%string;
                ("Total size: " ++ str_of_int (total_size_bytes stats)
                                ++ " bytes")%string;
                ("Dedup ratio: " ++ format_2f (stats_dedup_ratio stats))%string;
                ("Space saved: " ++ str_of_int (space_saved_bytes stats)
                                 ++ " bytes")%string];
             tables := db; written := [] |}
      else if (cmd =? "restore")%string then
        match args with
        | id :: output :: _ =>
            let r := restore host db id output in
            success <- restore_result r ;;
            Returned {| printed := [("Restored: " ++ str_of_bool success)%string];
                        tables := db; written := restore_writes r |}
        | _ => Returned (silent db)
        end
      else if (cmd =? "verify")%string then
        match args with
        | id :: _ =>
            Returned {| printed :=
                          [("Backup valid: " ++ str_of_bool (verify db id))%string];
                        tables := db; written := [] |}
        | [] => Returned (silent db)
        end
      else Returned (silent db)
  end.

End Main.

(** ** More notions the facts are stated with *)

(** The chunks of [xs] whose digest is not among [known] and was not met
    earlier in [xs]: the first occurrence of every new digest, in order. *)
Fixpoint first_new (known : list string) (xs : list bytes) : list bytes :=
  match xs with
  | [] => []
  | x :: rest =>
      if existsb (String.eqb (Hashlib.sha256_hexdigest x)) known
      then first_new known rest
      else x :: first_new (Hashlib.sha256_hexdigest x :: known) rest
  end.

(** The stored size that the table records for the digest of a chunk. *)
Definition stored_size_of (rows : list chunk_row) (chunk_data : bytes) : Z :=
  match select_chunk rows (Hashlib.sha256_hexdigest chunk_data) with
  | Some c => chunk_compressed_size c
  | None => 0
  end.

(** The contents of the files one run reads, in reading order. *)
Definition source_contents (fs : file_system) (source_paths : list string)
  : list bytes :=
  flat_map
    (fun src_path =>
       match fs src_path with
       | Returned (Some files) =>
           flat_map (fun file : string * option bytes =>
                       match snd file with
                       | Some content => [content]
                       | None => []
                       end) files
       | _ => []
       end)
    source_paths.

(** The job row as [UPDATE jobs SET last_run, size_bytes, status] leaves it. *)
Definition completed (clk : clock) (size : Z) (j : job_row) : job_row :=
  {| job_id := job_id j; job_name := job_name j;
     job_source_paths := job_source_paths j;
     job_exclude_patterns := job_exclude_patterns j;
     job_destination := job_destination j; job_schedule := job_schedule j;
     job_compression := job_compression j;
     job_last_run := Some (utcnow_job clk);
     job_size_bytes := size; job_status := "completed" |}.

(** A row as [run_backup] writes them: the id is made of the digest, and the
    size is that of one read. *)
Definition chunk_row_well_formed (c : chunk_row) : Prop :=
  chunk_id c = chunk_id_of (chunk_sha256 c) /\
  0 < chunk_size c <= Z.of_nat CHUNK_SIZE /\
  chunk_references c = [].

(** Two files whose only chunks, "a7ex" and "c5kt", have digests that start
    with the same eight digits (7aaa05d6); zlib emits a block of literals for
    either. *)
Definition files_same_prefix : file_system :=
  fun p => if (p =? "/data")%string
           then Returned (Some [("/data/one.txt", Some (encode "a7ex"));
                                ("/data/two.txt", Some (encode "c5kt"))])
           else Returned None.

(** A host that lets every directory be made and every file be written, and
    one on which [/etc/hostname] is a file. *)
Definition willing_host : output_host :=
  {| mkdir := fun _ => Returned tt; open_wb := fun _ _ => Returned tt |}.


(** [/data] holds a file that cannot be opened. *)
Definition files_unreadable : file_system :=
  fun p => if (p =? "/data")%string
           then Returned (Some [("/data/one.txt", Some (encode "a"));
                                ("/data/locked.txt", None)])
           else Returned None.

(** * Facts *)

(** ** Lists, dictionaries and sorting *)

Lemma string_eqb_true (a b : string) : (a =? b)%string = true <-> a = b.
Proof. apply String.eqb_eq. Qed.

Lemma string_eqb_false (a b : string) : (a =? b)%string = false <-> a <> b.
Proof. apply String.eqb_neq. Qed.

Lemma insert_desc_perm (b : backup_row) (l : list backup_row) :
  Permutation (insert_desc b l) (b :: l).
Proof.
  induction l as [|b' l IH]; simpl.
  - apply Permutation_refl.
  - destruct (backup_timestamp b' <? backup_timestamp b).
    + apply Permutation_refl.
    + eapply perm_trans; [apply perm_skip, IH | apply perm_swap].
Qed.

Lemma insert_desc_hd (b x : backup_row) (l : list backup_row) :
  newest_first x b -> HdRel newest_first x l ->
  HdRel newest_first x (insert_desc b l).
Proof.
  intros Hb Hl. destruct l as [|b' l]; simpl.
  - constructor. exact Hb.
  - destruct (backup_timestamp b' <? backup_timestamp b).
    + constructor. exact Hb.
    + constructor. inversion Hl; subst. assumption.
Qed.

Lemma insert_desc_sorted (b : backup_row) (l : list backup_row) :
  Sorted newest_first l -> Sorted newest_first (insert_desc b l).
Proof.
  induction l as [|b' l IH]; simpl; intros Hs.
  - repeat constructor.
  - destruct (backup_timestamp b' <? backup_timestamp b) eqn:E.
    + constructor; [exact Hs|]. constructor.
      unfold newest_first. apply Z.ltb_lt in E. lia.
    + inversion Hs; subst. constructor.
      * apply IH. assumption.
      * apply insert_desc_hd; [|assumption].
        unfold newest_first. apply Z.ltb_ge in E. exact E.
Qed.

Lemma order_by_gen_sorted (rows acc : list backup_row) :
  Sorted newest_first acc ->
  Sorted newest_first (fold_left (fun sorted b => insert_desc b sorted) rows acc).
Proof.
  revert acc. induction rows as [|b rows IH]; simpl; intros acc Hs.
  - exact Hs.
  - apply IH, insert_desc_sorted, Hs.
Qed.

Lemma order_by_gen_perm (rows acc : list backup_row) :
  Permutation (fold_left (fun sorted b => insert_desc b sorted) rows acc)
              (acc ++ rows).
Proof.
  revert acc. induction rows as [|b rows IH]; simpl; intros acc.
  - rewrite app_nil_r. apply Permutation_refl.
  - eapply perm_trans; [apply IH|].
    eapply perm_trans; [apply Permutation_app_tail, insert_desc_perm|].
    simpl. apply Permutation_middle.
Qed.

Lemma order_by_sorted (rows : list backup_row) :
  Sorted newest_first (order_by_timestamp_desc rows).
Proof. apply order_by_gen_sorted. constructor. Qed.

Lemma order_by_perm (rows : list backup_row) :
  Permutation (order_by_timestamp_desc rows) rows.
Proof. apply (order_by_gen_perm rows []). Qed.

Lemma find_some_iff_exists {A : Type} (p : A -> bool) (l : list A) :
  (exists x, find p l = Some x) <-> existsb p l = true.
Proof.
  induction l as [|a l IH]; simpl.
  - split; [intros [x H]; discriminate | discriminate].
  - destruct (p a); simpl.
    + split; [reflexivity | intros _; eexists; reflexivity].
    + exact IH.
Qed.

(** ** list_backups *)

(** C9, as the code has it: [list_backups] returns the rows newest first; for
    a non-empty [job_id] they are the backups of that job, and for [None] or
    the empty string they are all the backups.  This holds whatever text the
    host gives for a timestamp. *)
Theorem list_backups_newest_first_of_job (fromtimestamp_isoformat : Z -> string)
    (db : database) (job : option string) :
  exists rows,
    list_backups fromtimestamp_isoformat db job
    = map (info_of_row fromtimestamp_isoformat) rows /\
    Sorted newest_first rows /\
    Permutation rows
      (match job with
       | Some j =>
           if (j =? "")%string then backups db
           else filter (fun b => (backup_job_id b =? j)%string) (backups db)
       | None => backups db
       end).
Proof.
  exists (list_backups_rows db job). split; [reflexivity|].
  unfold list_backups_rows.
  destruct job as [j|]; [destruct (j =? "")%string|];
    split; auto using order_by_sorted, order_by_perm.
Qed.

(** ** run_backup on an unknown job *)

(** C10: with a job id that the jobs table does not hold, [run_backup]
    returns [None] and the three tables are what they were. *)
Theorem run_backup_unknown_job
    (zlib_compress : bytes -> option bytes) (fs : file_system) (clk : clock)
    (db : database) (job : string) :
  select_job db job = None ->
  run_backup zlib_compress fs clk db job = Returned (None, db).
Proof.
  intros H. unfold run_backup. rewrite H. reflexivity.
Qed.

(** C10 at an id that [fresh_db] does not hold. *)
Lemma run_backup_unknown_job_witness :
  select_job fresh_db "000000000000" = None /\
  run_backup zlib_compress_short (one_file (encode "a")) monday_morning
             fresh_db "000000000000"
  = Returned (None, fresh_db).
Proof.
  split; [reflexivity|].
  apply (run_backup_unknown_job zlib_compress_short (one_file (encode "a"))
           monday_morning fresh_db "000000000000").
  reflexivity.
Defined.

(** ** restore and verify *)

Lemma verify_true_iff (db : database) (id : string) :
  verify db id = true <->
  exists row, select_backup db id = Some row /\
              forall d, In d (keys (backup_chunk_ids row)) ->
                        exists c, select_chunk (chunks db) d = Some c.
Proof.
  unfold verify. destruct (select_backup db id) as [row|].
  - rewrite forallb_forall. split.
    + intros H. exists row. split; [reflexivity|]. intros d Hd.
      specialize (H d Hd). destruct (select_chunk (chunks db) d) as [c|];
        [exists c; reflexivity | discriminate].
    + intros [row' [E H]] d Hd. injection E as <-.
      destruct (H d Hd) as [c Hc]. rewrite Hc. reflexivity.
  - split; [discriminate | intros [row [E _]]; discriminate].
Qed.




(** Whatever [restore] writes is the placeholder. *)
Lemma restore_writes_only_placeholder (host : output_host) (db : database)
    (id output_dir : string) (name : string) (content : bytes) :
  In (name, content) (restore_writes (restore host db id output_dir)) ->
  content = CHUNK_DATA_PLACEHOLDER.
Proof.
  unfold restore. destruct (mkdir host output_dir); [|contradiction].
  destruct (select_backup db id) as [row|]; cbn [restore_writes];
    [|contradiction].
  induction (backup_chunk_ids row) as [|[sha256 count] rest IH];
    cbn [restore_chunks snd]; [contradiction|].
  destruct (select_chunk (chunks db) sha256); [|exact IH].
  destruct (open_wb host output_dir (restored_name sha256)); cbn [snd];
    [|contradiction].
  intros [H|H]; [congruence | exact (IH H)].
Qed.

Lemma select_chunk_remove_same (db : database) (d : string) :
  select_chunk (chunks (remove_chunk db d)) d = None.
Proof.
  unfold select_chunk, remove_chunk; simpl.
  induction (chunks db) as [|c l IH]; simpl; [reflexivity|].
  destruct (chunk_sha256 c =? d)%string eqn:E; simpl; [exact IH|].
  rewrite E. exact IH.
Qed.

(** C8, as the code has it: [verify] returns [True] for a backup whose
    manifest digests all have a chunk row, and [False], with nothing else,
    once the rows of one of these digests are removed. *)
Theorem verify_after_removing_chunk (db : database) (id : string)
    (row : backup_row) (d : string) :
  select_backup db id = Some row ->
  (forall d', In d' (keys (backup_chunk_ids row)) ->
              exists c, select_chunk (chunks db) d' = Some c) ->
  In d (keys (backup_chunk_ids row)) ->
  verify db id = true /\ verify (remove_chunk db d) id = false.
Proof.
  intros Hrow Hall Hd. split.
  - apply verify_true_iff. exists row. split; assumption.
  - destruct (verify (remove_chunk db d) id) eqn:E; [|reflexivity].
    apply verify_true_iff in E. destruct E as [row' [Hrow' H]].
    unfold select_backup, remove_chunk in Hrow'; simpl in Hrow'.
    unfold select_backup in Hrow. rewrite Hrow in Hrow'. injection Hrow' as <-.
    destruct (H d Hd) as [c Hc]. rewrite select_chunk_remove_same in Hc.
    discriminate.
Qed.

(** ** The scenario tables

    They are what the engine itself leaves. *)
Lemma fresh_db_reached :
  create_job 1709542800000321 empty_db "docs" ["/data"] "/backups" None "lz4" "daily"
  = Returned ("bc59759a35c8", fresh_db).
Proof. vm_compute. reflexivity. Qed.

Lemma week_db_reached :
  let db1 := fresh_db in
  let db2 := tables_after db1
               (create_job 1709542860000654 db1 "mail" ["/data"] "/backups" None
                           "lz4" "daily") in
  let db3 := tables_after db2
               (run_backup zlib_compress_short files_a_b monday_morning db2
                           "bc59759a35c8") in
  let db4 := tables_after db3
               (run_backup zlib_compress_short files_a_b monday_mail db3
                           "4f13d306ef8c") in
  let db5 := tables_after db4
               (run_backup zlib_compress_short files_a_b tuesday_morning db4
                           "bc59759a35c8") in
  tables_after db5
    (run_backup zlib_compress_short files_a_b wednesday_morning db5 "bc59759a35c8")
  = week_db.
Proof. vm_compute. reflexivity. Qed.


Lemma db_a_b_reached :
  run_backup zlib_compress_short files_a_b monday_morning fresh_db "bc59759a35c8"
  = Returned (Some "f170005861f7", db_a_b).
Proof. vm_compute. reflexivity. Qed.

Lemma db_a_twice_reached :
  run_backup zlib_compress_short (two_files (encode "a")) monday_morning fresh_db
             "bc59759a35c8"
  = Returned (Some "f170005861f7", db_a_twice).
Proof. vm_compute. reflexivity. Qed.

(** C8 on the tables [db_a_b], with the chunk of "b" removed. *)
Lemma verify_after_removing_chunk_witness :
  verify db_a_b "f170005861f7" = true /\
  verify (remove_chunk db_a_b digest_b) "f170005861f7" = false.
Proof.
  apply (verify_after_removing_chunk db_a_b "f170005861f7" backup_a_b digest_b).
  - reflexivity.
  - intros d' [<-|[<-|[]]]; eexists; reflexivity.
  - simpl. right. left. reflexivity.
Defined.

(** C8 fails as stated: [verify] gives the same answer, [False], whichever of
    the two chunks was removed, so the answer does not list the missing
    digest. *)
Lemma verify_does_not_list_missing_digest :
  missing_digests (remove_chunk db_a_b digest_a) "f170005861f7" = [digest_a] /\
  missing_digests (remove_chunk db_a_b digest_b) "f170005861f7" = [digest_b] /\
  verify (remove_chunk db_a_b digest_a) "f170005861f7" = false /\
  verify (remove_chunk db_a_b digest_b) "f170005861f7" = false.
Proof. vm_compute. repeat split. Qed.


(** C9 fails as stated: given the empty string as [job_id], [list_backups]
    returns every backup, none of which has the empty string as job id (the
    timestamps are as a host in UTC shows them). *)
Lemma list_backups_empty_job_id :
  map (fun i => (info_id i, info_job_id i, info_timestamp i))
      (list_backups Datetime.isoformat week_db (Some ""))
  = [("5bff2346b4d3", "bc59759a35c8", "2024-03-06T10:00:00.002748");
     ("bb69547c7d16", "bc59759a35c8", "2024-03-05T10:00:00.003120");
     ("2c7b3f0d0935", "4f13d306ef8c", "2024-03-04T11:00:00.003300");
     ("f170005861f7", "bc59759a35c8", "2024-03-04T10:00:00.004567")].
Proof. vm_compute. reflexivity. Qed.

(** ** prune *)

Lemma filter_filter {A : Type} (p q : A -> bool) (l : list A) :
  filter p (filter q l) = filter (fun x => q x && p x) l.
Proof.
  induction l as [|a l IH]; simpl; [reflexivity|].
  destruct (q a); simpl; [destruct (p a)|]; rewrite ?IH; reflexivity.
Qed.

(** The [DELETE] loop removes the rows whose id is in [to_delete]. *)
Lemma delete_loop_is_filter (ids : list string) (rows : list backup_row) :
  fold_left delete_backup ids rows = filter (fun b => negb (id_in ids b)) rows.
Proof.
  revert rows. induction ids as [|id ids IH]; simpl; intros rows.
  - induction rows as [|b rows IHr]; simpl; [reflexivity|]. f_equal. exact IHr.
  - rewrite IH. unfold delete_backup. rewrite filter_filter.
    apply filter_ext. intros b. unfold id_in; simpl.
    destruct (backup_id b =? id)%string; reflexivity.
Qed.

Lemma id_in_true (ids : list string) (b : backup_row) :
  id_in ids b = true <-> In (backup_id b) ids.
Proof.
  unfold id_in. rewrite existsb_exists. split.
  - intros [id [Hin E]]. apply string_eqb_true in E. subst. exact Hin.
  - intros H. exists (backup_id b). split; [exact H | apply String.eqb_refl].
Qed.

Lemma manifest_refs_split (p : backup_row -> bool) (rows : list backup_row)
    (d : string) :
  manifest_refs rows d
  = manifest_refs (filter p rows) d
    + manifest_refs (filter (fun b => negb (p b)) rows) d.
Proof.
  unfold manifest_refs.
  induction rows as [|b rows IH]; simpl; [reflexivity|].
  destruct (p b); simpl; lia.
Qed.

Lemma prune_backups (db : database) (job : string) (kd kw km : Z) :
  exists ids,
    prune db job kd kw km
    = (len ids,
       {| jobs := jobs db;
          backups := filter (fun b => negb (id_in ids b)) (backups db);
          chunks := chunks db |}) /\
    ids = slice_from (kd + kw + km)
            (map backup_id
               (order_by_timestamp_desc
                  (filter (fun b => (backup_job_id b =? job)%string) (backups db)))).
Proof.
  eexists. split; [|reflexivity].
  unfold prune. rewrite delete_loop_is_filter. reflexivity.
Qed.

Lemma deleted_rows_are_the_selected (ids : list string) (rows : list backup_row) :
  filter (fun b => negb (existsb (fun k => (backup_id k =? backup_id b)%string)
                           (filter (fun b => negb (id_in ids b)) rows))) rows
  = filter (fun b => negb (negb (id_in ids b))) rows.
Proof.
  apply filter_ext_in. intros b Hb. f_equal.
  destruct (id_in ids b) eqn:E; simpl.
  - apply not_true_is_false. intros H. apply existsb_exists in H.
    destruct H as [k [Hk Ek]]. apply filter_In in Hk. destruct Hk as [_ Hk].
    apply string_eqb_true in Ek. unfold id_in in *. rewrite Ek in Hk.
    rewrite E in Hk. discriminate.
  - apply existsb_exists. exists b. split.
    + apply filter_In. split; [exact Hb | rewrite E; reflexivity].
    + apply String.eqb_refl.
Qed.

(** C4, as the code has it: [prune] deletes rows of the backups table only.
    The chunks table is left as it was, references column included, also for
    a chunk that no remaining manifest lists; what drops by the deleted
    manifests' counts is the number of occurrences of each digest over the
    manifests that remain. *)
Theorem prune_leaves_chunks_table (db : database) (job : string)
    (keep_daily keep_weekly keep_monthly : Z) :
  let db' := snd (prune db job keep_daily keep_weekly keep_monthly) in
  let deleted :=
    filter (fun b => negb (existsb (fun k => (backup_id k =? backup_id b)%string)
                             (backups db')))
           (backups db) in
  chunks db' = chunks db /\
  forall d, manifest_refs (backups db') d
            = manifest_refs (backups db) d - manifest_refs deleted d.
Proof.
  destruct (prune_backups db job keep_daily keep_weekly keep_monthly)
    as [ids [E _]].
  rewrite E. cbn zeta. cbn [snd backups chunks]. split; [reflexivity|].
  intros d. rewrite deleted_rows_are_the_selected.
  rewrite (manifest_refs_split (fun b => negb (id_in ids b)) (backups db) d).
  lia.
Qed.

(** C4 fails as stated: pruning the only backup leaves its chunk in the
    store, with no manifest listing it. *)
Lemma prune_keeps_unreferenced_chunk :
  backups db_a_twice <> [] /\
  manifest_refs (backups db_a_twice) digest_a = 2 /\
  prune db_a_twice "bc59759a35c8" 0 0 0
  = (1, {| jobs := jobs db_a_twice; backups := []; chunks := [chunk_a] |}) /\
  manifest_refs [] digest_a = 0.
Proof.
  split; [discriminate|]. vm_compute. repeat split.
Qed.

(** Backup ids stay a key of any selection of rows. *)
Lemma backup_id_key_filter (p : backup_row -> bool) (rows : list backup_row) :
  NoDup (map backup_id rows) -> NoDup (map backup_id (filter p rows)).
Proof.
  induction rows as [|b rows IH]; simpl; intros Hkey; [constructor|].
  apply NoDup_cons_iff in Hkey. destruct Hkey as [Hfresh Hkey].
  destruct (p b); simpl; [|auto].
  constructor; [|auto].
  intros Hin. apply Hfresh. apply in_map_iff in Hin. destruct Hin as [x [E Hx]].
  apply filter_In in Hx. apply in_map_iff. exists x. tauto.
Qed.

(** Two rows of the table with the same id are the same row. *)
Lemma backup_id_key_row (rows : list backup_row) (a b : backup_row) :
  NoDup (map backup_id rows) -> In a rows -> In b rows ->
  backup_id a = backup_id b -> a = b.
Proof.
  induction rows as [|x rows IH]; simpl; intros Hkey Ha Hb E; [contradiction|].
  apply NoDup_cons_iff in Hkey. destruct Hkey as [Hfresh Hkey].
  destruct Ha as [->|Ha], Hb as [->|Hb]; auto.
  - exfalso. apply Hfresh. rewrite E. apply in_map. exact Hb.
  - exfalso. apply Hfresh. rewrite <- E. apply in_map. exact Ha.
Qed.

Lemma NoDup_firstn_skipn_disjoint {A : Type} (n : nat) (l : list A) (x : A) :
  NoDup l -> In x (firstn n l) -> In x (skipn n l) -> False.
Proof.
  intros H H1 H2. rewrite <- (firstn_skipn n l) in H.
  revert H H1. generalize (firstn n l) as l1. induction l1 as [|a l1 IH];
    simpl; intros H H1; [contradiction|].
  inversion H as [|y ys Hnot Hnd]; subst. destruct H1 as [->|H1].
  - apply Hnot. apply in_or_app. right. exact H2.
  - apply IH; assumption.
Qed.

Lemma NoDup_skipn {A : Type} (n : nat) (l : list A) : NoDup l -> NoDup (skipn n l).
Proof.
  revert l. induction n as [|n IH]; intros l H; simpl; [exact H|].
  destruct l as [|a l]; [constructor|]. inversion H; subst. apply IH. assumption.
Qed.

Lemma length_filter_split {A : Type} (p : A -> bool) (l : list A) :
  len l = len (filter p l) + len (filter (fun x => negb (p x)) l).
Proof.
  assert (H : length l
              = (length (filter p l) + length (filter (fun x => negb (p x)) l))%nat).
  { induction l as [|a l IH]; simpl; [reflexivity|].
    destruct (p a); simpl; lia. }
  unfold len. lia.
Qed.

(** The rows whose id is listed are as many as the listed ids, when ids are
    a key of the table and every listed id is in the table. *)
Lemma length_filter_id_in (ids : list string) (rows : list backup_row) :
  NoDup (map backup_id rows) -> NoDup ids -> incl ids (map backup_id rows) ->
  len (filter (id_in ids) rows) = len ids.
Proof.
  intros Hrows Hids Hincl. unfold len. f_equal.
  rewrite <- (length_map backup_id).
  apply Permutation_length, NoDup_Permutation.
  - apply backup_id_key_filter, Hrows.
  - exact Hids.
  - intros id. rewrite in_map_iff. split.
    + intros [b [E Hb]]. apply filter_In in Hb. destruct Hb as [_ Hb].
      apply id_in_true in Hb. subst. exact Hb.
    + intros Hid. destruct (proj1 (in_map_iff _ _ _) (Hincl id Hid)) as [b [E Hb]].
      exists b. split; [exact E|]. apply filter_In. split; [exact Hb|].
      apply id_in_true. rewrite E. exact Hid.
Qed.

Lemma slice_from_nonneg {A : Type} (n : Z) (l : list A) :
  0 <= n -> slice_from n l = skipn (Z.to_nat n) l.
Proof.
  intros H. unfold slice_from. destruct (n <? 0) eqn:E; [|reflexivity].
  apply Z.ltb_lt in E. lia.
Qed.

Lemma newest_first_split (l : list backup_row) (n : nat) (a b : backup_row) :
  Sorted newest_first l -> In a (firstn n l) -> In b (skipn n l) ->
  newest_first a b.
Proof.
  intros Hs. apply Sorted_StronglySorted in Hs;
    [|intros x y z; unfold newest_first; lia].
  revert n. induction Hs as [|x l Hl IH Hx]; intros n Ha Hb.
  - rewrite firstn_nil in Ha. contradiction.
  - destruct n as [|n]; [contradiction|]. simpl in Ha, Hb.
    destruct Ha as [<-|Ha]; [|apply (IH n Ha Hb)].
    rewrite Forall_forall in Hx. apply Hx.
    rewrite <- (firstn_skipn n l). apply in_or_app. right. exact Hb.
Qed.

(** C3, as the code has it: with keep-counts of non-negative sum, [prune]
    keeps the [keep_daily + keep_weekly + keep_monthly] most recent backups of
    the job, whatever their week or month, and every backup of the other jobs;
    it deletes the job's other backups and returns how many rows it deleted.
    (Backup ids are the table's primary key.) *)
Theorem prune_keeps_most_recent (db : database) (job : string)
    (keep_daily keep_weekly keep_monthly : Z) :
  NoDup (map backup_id (backups db)) ->
  0 <= keep_daily + keep_weekly + keep_monthly ->
  let newest :=
    order_by_timestamp_desc
      (filter (fun b => (backup_job_id b =? job)%string) (backups db)) in
  let keep := Z.to_nat (keep_daily + keep_weekly + keep_monthly) in
  let n := fst (prune db job keep_daily keep_weekly keep_monthly) in
  let db' := snd (prune db job keep_daily keep_weekly keep_monthly) in
  (forall b, In b (backups db') <->
             In b (backups db) /\
             (backup_job_id b = job -> In b (firstn keep newest))) /\
  (forall b b', In b (firstn keep newest) -> In b' (skipn keep newest) ->
                backup_timestamp b' <= backup_timestamp b) /\
  n = len (skipn keep newest) /\
  n = len (backups db) - len (backups db').
Proof.
  intros Hkey Hsum newest keep n db'.
  destruct (prune_backups db job keep_daily keep_weekly keep_monthly)
    as [ids [E Hids]].
  subst n db'. rewrite E. cbn [fst snd backups].
  rewrite slice_from_nonneg in Hids by exact Hsum.
  fold newest keep in Hids. rewrite skipn_map in Hids.
  assert (Hperm : Permutation newest
            (filter (fun b => (backup_job_id b =? job)%string) (backups db)))
    by apply order_by_perm.
  assert (Hin_newest : forall b, In b newest <->
                                 In b (backups db) /\ backup_job_id b = job).
  { intros b. split.
    - intros H. apply (Permutation_in _ Hperm) in H. apply filter_In in H.
      rewrite string_eqb_true in H. exact H.
    - intros [H1 H2]. apply (Permutation_in _ (Permutation_sym Hperm)).
      apply filter_In. rewrite string_eqb_true. tauto. }
  assert (Hnd : NoDup (map backup_id newest)).
  { apply (Permutation_NoDup (Permutation_map backup_id (Permutation_sym Hperm))).
    apply backup_id_key_filter, Hkey. }
  assert (Hnd' : NoDup newest) by (apply (NoDup_map_inv backup_id), Hnd).
  split; [|split; [|split]].
  - intros b. rewrite filter_In. split.
    + intros [Hb Hnot]. split; [exact Hb|]. intros Hjob.
      assert (Hbn : In b newest) by (apply Hin_newest; tauto).
      rewrite <- (firstn_skipn keep newest) in Hbn.
      apply in_app_or in Hbn. destruct Hbn as [Hbn|Hbn]; [exact Hbn|].
      exfalso. apply negb_true_iff in Hnot.
      assert (Hyes : id_in ids b = true)
        by (apply id_in_true; subst ids; apply in_map; exact Hbn).
      congruence.
    + intros [Hb Hkeep]. split; [exact Hb|]. apply negb_true_iff.
      destruct (id_in ids b) eqn:Hyes; [exfalso|reflexivity].
      apply id_in_true in Hyes. subst ids. apply in_map_iff in Hyes.
      destruct Hyes as [b' [Eid Hb']].
      assert (Hb'n : In b' newest)
        by (rewrite <- (firstn_skipn keep newest); apply in_or_app; tauto).
      assert (b' = b).
      { apply (backup_id_key_row (backups db)); auto.
        apply Hin_newest, Hb'n. }
      subst b'.
      apply (NoDup_firstn_skipn_disjoint keep newest b Hnd'); [|exact Hb'].
      apply Hkeep. apply Hin_newest, Hb'n.
  - intros b b'. apply newest_first_split, order_by_sorted.
  - subst ids. unfold len. rewrite length_map. reflexivity.
  - rewrite (length_filter_split (fun b => negb (id_in ids b)) (backups db)).
    assert (Hdel : len (filter (fun b => negb (negb (id_in ids b))) (backups db))
                   = len ids).
    { rewrite (filter_ext _ (id_in ids)) by (intros b; apply negb_involutive).
      apply length_filter_id_in; [exact Hkey| |].
      - subst ids. rewrite <- skipn_map. apply NoDup_skipn, Hnd.
      - subst ids. intros id Hid. apply in_map_iff in Hid.
        destruct Hid as [b [Eb Hb]]. apply in_map_iff. exists b.
        split; [exact Eb|]. apply Hin_newest.
        rewrite <- (firstn_skipn keep newest). apply in_or_app. tauto. }
    lia.
Qed.

(** C3 on [week_db] with keep-counts 1, 1 and 0: the Monday backup goes,
    the Tuesday and Wednesday ones and the backup of the other job stay. *)
Lemma prune_keeps_most_recent_witness :
  (forall b, In b (backups (snd (prune week_db "bc59759a35c8" 1 1 0))) <->
             In b (backups week_db) /\
             (backup_job_id b = "bc59759a35c8" ->
              In b (firstn 2 [wednesday_backup; tuesday_backup; monday_backup]))) /\
  (forall b b',
      In b (firstn 2 [wednesday_backup; tuesday_backup; monday_backup]) ->
      In b' (skipn 2 [wednesday_backup; tuesday_backup; monday_backup]) ->
      backup_timestamp b' <= backup_timestamp b) /\
  fst (prune week_db "bc59759a35c8" 1 1 0) = 1 /\
  fst (prune week_db "bc59759a35c8" 1 1 0)
  = len (backups week_db)
    - len (backups (snd (prune week_db "bc59759a35c8" 1 1 0))).
Proof.
  assert (Hkey : NoDup (map backup_id (backups week_db))).
  { repeat constructor; simpl; intuition discriminate. }
  exact (prune_keeps_most_recent week_db "bc59759a35c8" 1 1 0 Hkey
           ltac:(vm_compute; discriminate)).
Defined.

(** Backup ids are a key of the table after [prune] and after [run_backup],
    if they were before. *)
Lemma prune_keeps_backup_key (db : database) (job : string) (kd kw km : Z) :
  NoDup (map backup_id (backups db)) ->
  NoDup (map backup_id (backups (snd (prune db job kd kw km)))).
Proof.
  intros Hkey. destruct (prune_backups db job kd kw km) as [ids [E _]].
  rewrite E. cbn [snd backups]. apply backup_id_key_filter, Hkey.
Qed.

Lemma run_backup_keeps_backup_key
    (zlib_compress : bytes -> option bytes) (fs : file_system) (clk : clock)
    (db : database) (job : string) :
  NoDup (map backup_id (backups db)) ->
  NoDup (map backup_id
           (backups (tables_after db (run_backup zlib_compress fs clk db job)))).
Proof.
  intros Hkey. unfold run_backup.
  destruct (select_job db job) as [job_row|]; [|exact Hkey].
  destruct (for_each _ _ _) as [st|e]; [|exact Hkey].
  cbn [bind]. unfold insert_backup. cbn [backup_id].
  destruct (existsb _ (backups db)) eqn:E; [exact Hkey|].
  cbn [bind tables_after backups]. rewrite map_app.
  apply (Permutation_NoDup (Permutation_cons_append _ _)).
  constructor; [|exact Hkey].
  intros Hin. apply in_map_iff in Hin. destruct Hin as [b [Eb Hb]].
  apply not_true_iff_false in E. apply E, existsb_exists.
  exists b. split; [exact Hb | apply string_eqb_true, Eb].
Qed.

(** C3 fails as stated: with keep-counts 1, 2 and 0 and three backups of one
    calendar week, the rule of the design keeps the Wednesday backup and the
    Tuesday one (the most recent of the week among the rest) and deletes the
    Monday one; [prune] deletes nothing and returns 0. *)
Lemma prune_ignores_calendar_weeks :
  Datetime.calendar_week (backup_timestamp monday_backup)
  = Datetime.calendar_week (backup_timestamp tuesday_backup) /\
  design_retention_kept [wednesday_backup; tuesday_backup; monday_backup] 1 2 0
  = [wednesday_backup; tuesday_backup] /\
  prune week_db "bc59759a35c8" 1 2 0 = (0, week_db).
Proof. vm_compute. repeat split. Qed.

(** ** run_backup *)

Lemma dict_get_set (d : dict) (k k' : string) (v default : Z) :
  dict_get (dict_set d k v) k' default
  = if (k =? k')%string then v else dict_get d k' default.
Proof.
  induction d as [|[k0 v0] d IH]; simpl.
  - reflexivity.
  - destruct (k0 =? k)%string eqn:E0; simpl.
    + apply string_eqb_true in E0. subst k0.
      destruct (k =? k')%string; reflexivity.
    + destruct (k0 =? k')%string eqn:E1.
      * apply string_eqb_true in E1. subst k0. rewrite String.eqb_sym, E0.
        reflexivity.
      * exact IH.
Qed.

Lemma for_each_app {A S : Type} (body : S -> A -> outcome S) (l1 l2 : list A)
    (st : S) :
  for_each body (l1 ++ l2) st = (st' <- for_each body l1 st ;; for_each body l2 st').
Proof.
  revert st. induction l1 as [|a l1 IH]; simpl; intros st; [reflexivity|].
  destruct (body st a) as [st1|e]; simpl; [apply IH | reflexivity].
Qed.

Lemma select_chunk_app (rows rows' : list chunk_row) (d : string) :
  select_chunk (rows ++ rows') d
  = match select_chunk rows d with
    | Some c => Some c
    | None => select_chunk rows' d
    end.
Proof.
  unfold select_chunk. induction rows as [|c rows IH]; simpl; [reflexivity|].
  destruct (chunk_sha256 c =? d)%string; [reflexivity | exact IH].
Qed.

Lemma select_chunk_none_iff (rows : list chunk_row) (d : string) :
  select_chunk rows d = None <-> rows_with_digest rows d = 0%nat.
Proof.
  unfold select_chunk, rows_with_digest.
  induction rows as [|c rows IH]; simpl; [tauto|].
  destruct (chunk_sha256 c =? d)%string; simpl; [split; discriminate | exact IH].
Qed.

Lemma rows_with_digest_app (rows rows' : list chunk_row) (d : string) :
  rows_with_digest (rows ++ rows') d
  = (rows_with_digest rows d + rows_with_digest rows' d)%nat.
Proof.
  unfold rows_with_digest. rewrite filter_app, length_app. reflexivity.
Qed.

(** The read loop consumes the whole file: its chunks, put end to end, are
    the content; none is empty and none is longer than [CHUNK_SIZE]. *)
Lemma CHUNK_SIZE_positive : (0 < CHUNK_SIZE)%nat.
Proof. unfold CHUNK_SIZE. apply Nat.lt_0_succ. Qed.

Lemma read_chunks_concat (fuel : nat) (content : bytes) :
  (length content < fuel)%nat -> concat (read_chunks fuel content) = content.
Proof.
  revert content. induction fuel as [|fuel IH]; intros content H; [lia|].
  cbn [read_chunks]. destruct (firstn CHUNK_SIZE content) as [|b chunk] eqn:E.
  - destruct content as [|b content]; [reflexivity|].
    pose proof CHUNK_SIZE_positive as Hpos.
    destruct CHUNK_SIZE; [lia | discriminate E].
  - cbn [concat]. rewrite IH.
    + rewrite <- E. apply firstn_skipn.
    + rewrite length_skipn. pose proof CHUNK_SIZE_positive.
      destruct content; [discriminate E | simpl in *; lia].
Qed.

Lemma file_chunks_concat (content : bytes) : concat (file_chunks content) = content.
Proof. apply read_chunks_concat. lia. Qed.

Lemma read_chunks_sizes (fuel : nat) (content chunk_data : bytes) :
  In chunk_data (read_chunks fuel content) ->
  (0 < length chunk_data <= CHUNK_SIZE)%nat.
Proof.
  revert content. induction fuel as [|fuel IH]; intros content H; [contradiction|].
  cbn [read_chunks] in H.
  destruct (firstn CHUNK_SIZE content) as [|b chunk] eqn:E; [contradiction|].
  destruct H as [<-|H]; [|apply (IH _ H)].
  split; [simpl; lia|]. rewrite <- E, length_firstn. lia.
Qed.

Section RecorderFacts.

Variable zlib_compress : bytes -> option bytes.

Local Abbreviation sha := Hashlib.sha256_hexdigest.
Local Abbreviation new_row := (new_chunk_row zlib_compress).
Local Abbreviation scan_one := (scan_chunk zlib_compress).
Local Abbreviation scan_effect := (scan_effect zlib_compress).

Lemma select_new_row (x : bytes) (d : string) :
  select_chunk [new_row x] d = if (sha x =? d)%string then Some (new_row x) else None.
Proof. reflexivity. Qed.

(** One pass of the loop body: either the digest has a row, which is left
    alone, or a row is appended for it; the digest is counted once more. *)
Lemma scan_chunk_effect (st st1 : scan) (x : bytes) :
  scan_one st x = Returned st1 ->
  unseen_uncounted st ->
  (scan_chunks st1 = scan_chunks st /\ select_chunk (scan_chunks st) (sha x) <> None
   \/ scan_chunks st1 = scan_chunks st ++ [new_row x]
      /\ select_chunk (scan_chunks st) (sha x) = None) /\
  (forall d, dict_get (chunks_used st1) d 0
             = dict_get (chunks_used st) d 0 + (if (sha x =? d)%string then 1 else 0)) /\
  total_size st1 = total_size st + len x /\
  unseen_uncounted st1.
Proof.
  unfold scan_chunk. intros H Hinv.
  destruct (select_chunk (scan_chunks st) (sha x)) as [existing|] eqn:Esel.
  - injection H as <-. cbn [scan_chunks chunks_used total_size].
    split; [left; split; [reflexivity | discriminate]|].
    split; [|split; [reflexivity|]].
    + intros d. rewrite dict_get_set.
      destruct (sha x =? d)%string eqn:E; [|lia].
      apply string_eqb_true in E. subst d. reflexivity.
    + intros d Hd. cbn [scan_chunks chunks_used] in *. rewrite dict_get_set.
      destruct (sha x =? d)%string eqn:E; [|apply Hinv, Hd].
      apply string_eqb_true in E. subst d. congruence.
  - unfold insert_chunk in H.
    destruct (existsb _ (scan_chunks st)); [discriminate|].
    cbn [bind] in H. injection H as <-. cbn [scan_chunks chunks_used total_size].
    split; [right; split; reflexivity|].
    split; [|split; [reflexivity|]].
    + intros d. rewrite dict_get_set.
      destruct (sha x =? d)%string eqn:E; [|lia].
      apply string_eqb_true in E. subst d. rewrite (Hinv _ Esel). reflexivity.
    + intros d Hd. cbn [scan_chunks chunks_used] in *. rewrite dict_get_set.
      rewrite select_chunk_app, select_new_row in Hd.
      destruct (select_chunk (scan_chunks st) d) eqn:E1; [discriminate|].
      destruct (sha x =? d)%string; [discriminate|]. apply Hinv, E1.
Qed.

Lemma select_chunk_grows (rows rows' : list chunk_row) (d : string) :
  select_chunk rows d <> None -> select_chunk (rows ++ rows') d <> None.
Proof.
  rewrite select_chunk_app. destruct (select_chunk rows d); [discriminate | tauto].
Qed.

Lemma for_each_scan_chunk_effect (xs : list bytes) (st st' : scan) :
  for_each scan_one xs st = Returned st' ->
  unseen_uncounted st ->
  scan_effect st xs st'.
Proof.
  revert st. induction xs as [|x xs IH]; intros st H Hinv.
  - injection H as <-. exists []. simpl. rewrite app_nil_r.
    repeat split; try contradiction; try constructor; intros; lia.
  - simpl in H. destruct (scan_one st x) as [st1|e] eqn:E1; [|discriminate].
    cbn [bind] in H.
    destruct (scan_chunk_effect st st1 x E1 Hinv) as [Hrows [Hused [Htot Hinv1]]].
    destruct (IH st1 H Hinv1) as [news [Hr [Hnews [Hnd [Hcnt [Hall Hsum]]]]]].
    assert (Hcount : forall d,
               dict_get (chunks_used st') d 0
               = dict_get (chunks_used st) d 0
                 + Z.of_nat (count_occ string_dec (map sha (x :: xs)) d)).
    { intros d. rewrite Hcnt, Hused. simpl.
      destruct (string_dec (sha x) d) as [->|Hne].
      - rewrite String.eqb_refl. lia.
      - apply string_eqb_false in Hne. rewrite Hne. lia. }
    assert (Hhead : select_chunk (scan_chunks st') (sha x) <> None).
    { rewrite Hr. apply select_chunk_grows.
      destruct Hrows as [[-> Hs]|[-> _]]; [exact Hs|].
      rewrite select_chunk_app, select_new_row, String.eqb_refl.
      destruct (select_chunk (scan_chunks st) (sha x)); discriminate. }
    assert (Hall' : forall y, In y (x :: xs) ->
                              select_chunk (scan_chunks st') (sha y) <> None).
    { intros y [<-|Hy]; [exact Hhead | apply Hall, Hy]. }
    assert (Hsum' : total_size st' = total_size st + sum_Z (map len (x :: xs))).
    { rewrite Hsum, Htot. simpl. lia. }
    destruct Hrows as [[Hsame _]|[Hnew Hnone]].
    + exists news. split; [rewrite Hr, Hsame; reflexivity|].
      split; [|split; [exact Hnd | split; [exact Hcount | split; assumption]]].
      intros y Hy. destruct (Hnews y Hy) as [Hin Hsel].
      rewrite Hsame in Hsel. split; [right; exact Hin | exact Hsel].
    + exists (x :: news).
      split; [rewrite Hr, Hnew, <- app_assoc; reflexivity|].
      split; [|split; [|split; [exact Hcount | split; assumption]]].
      * intros y [<-|Hy]; [split; [left; reflexivity | exact Hnone]|].
        destruct (Hnews y Hy) as [Hin Hsel]. split; [right; exact Hin|].
        rewrite Hnew, select_chunk_app in Hsel.
        destruct (select_chunk (scan_chunks st) (sha y)); [discriminate | reflexivity].
      * simpl. constructor; [|exact Hnd]. intros Hin.
        apply in_map_iff in Hin. destruct Hin as [y [Ey Hy]].
        destruct (Hnews y Hy) as [_ Hsel].
        rewrite Hnew, select_chunk_app, select_new_row, Ey, String.eqb_refl in Hsel.
        destruct (select_chunk (scan_chunks st) (sha x)); discriminate.
Qed.

(** The nested loops of [run_backup] visit [source_chunks], in order. *)
Lemma scan_sources_flat (fs : file_system) (paths : list string) (st st' : scan) :
  for_each (scan_source zlib_compress fs) paths st = Returned st' ->
  for_each scan_one (source_chunks fs paths) st = Returned st'.
Proof.
  revert st. induction paths as [|p paths IH]; intros st H; [exact H|].
  simpl in H. destruct (scan_source zlib_compress fs st p) as [st1|e] eqn:E1;
    [|discriminate].
  cbn [bind] in H. simpl. rewrite for_each_app.
  unfold scan_source in E1.
  destruct (fs p) as [[files|]|e]; cbn [bind] in E1; [| |discriminate].
  - assert (Hfiles : for_each scan_one
                       (flat_map (fun file : string * option bytes =>
                                    match snd file with
                                    | Some content => file_chunks content
                                    | None => []
                                    end) files) st = Returned st1).
    { clear - E1. revert st E1. induction files as [|f files IHf]; intros st E1;
        [exact E1|].
      simpl in E1. destruct (scan_file zlib_compress st f) as [st2|e] eqn:E2;
        [|discriminate].
      cbn [bind] in E1. simpl. rewrite for_each_app.
      unfold scan_file in E2. destruct (snd f) as [content|]; [|discriminate].
      rewrite E2. cbn [bind]. apply IHf, E1. }
    rewrite Hfiles. cbn [bind]. apply IH, H.
  - injection E1 as <-. simpl. apply IH, H.
Qed.

(** What a run that returns a backup id has done. *)
Lemma run_backup_inv (fs : file_system) (clk : clock) (db db' : database)
    (job id : string) (job_row : job_row) :
  select_job db job = Some job_row ->
  run_backup zlib_compress fs clk db job = Returned (Some id, db') ->
  exists st row,
    scan_effect {| scan_chunks := chunks db; chunks_used := [];
                   total_size := 0; compressed_size := 0 |}
                (source_chunks fs (job_source_paths job_row)) st /\
    chunks db' = scan_chunks st /\
    backups db' = backups db ++ [row] /\
    backup_id row = id /\
    backup_chunk_ids row = chunks_used st /\
    backup_size_bytes row = total_size st /\
    backup_dedup_ratio row
    = if 0 <? total_size st
      then Qmake (compressed_size st) (Z.to_pos (total_size st)) else 0%Q.
Proof.
  intros Hjob H. unfold run_backup in H. rewrite Hjob in H.
  destruct (for_each (scan_source zlib_compress fs) (job_source_paths job_row) _)
    as [st|e] eqn:Escan; [|discriminate].
  cbn [bind] in H. unfold insert_backup in H.
  destruct (existsb _ (backups db)); [discriminate|].
  cbn [bind] in H. injection H as Hid <-.
  eexists st, _. split; [|repeat split; eauto].
  apply for_each_scan_chunk_effect; [apply scan_sources_flat, Escan|].
  intros d _. reflexivity.
Qed.

(** With every file readable the loops raise only from an [INSERT]. *)
Lemma scan_sources_readable (fs : file_system) (paths : list string) (st : scan) :
  readable fs paths ->
  for_each (scan_source zlib_compress fs) paths st
  = for_each scan_one (source_chunks fs paths) st.
Proof.
  revert st. induction paths as [|p paths IH]; intros st Hread; [reflexivity|].
  assert (Htail : readable fs paths).
  { destruct Hread as [Hstat Hopen]. split.
    - intros q Hq. apply Hstat. right. exact Hq.
    - intros q files f Hq. apply Hopen. right. exact Hq. }
  simpl. rewrite for_each_app. unfold scan_source at 1.
  destruct Hread as [Hstat Hopen].
  destruct (Hstat p (or_introl eq_refl)) as [found Efs]. rewrite Efs.
  cbn [bind]. destruct found as [files|].
  - assert (Hfiles : forall st0,
               for_each (scan_file zlib_compress) files st0
               = for_each scan_one
                   (flat_map (fun file : string * option bytes =>
                                match snd file with
                                | Some content => file_chunks content
                                | None => []
                                end) files) st0).
    { assert (Hok : forall f, In f files -> snd f <> None).
      { intros f Hf.
        apply (Hopen p files f); [left; reflexivity | exact Efs | exact Hf]. }
      clear - Hok. induction files as [|f files IHf]; intros st0; [reflexivity|].
      simpl. rewrite for_each_app. unfold scan_file at 1.
      destruct (snd f) as [content|] eqn:Ef.
      - destruct (for_each scan_one (file_chunks content) st0); simpl;
          [apply IHf; intros g Hg; apply Hok; right; exact Hg | reflexivity].
      - exfalso. apply (Hok f); [left; reflexivity | exact Ef]. }
    rewrite Hfiles.
    destruct (for_each scan_one _ st); simpl; [apply IH, Htail | reflexivity].
  - simpl. apply IH, Htail.
Qed.

Lemma for_each_scan_chunk_returns (xs : list bytes) (st : scan) :
  ids_tell_digests (scan_chunks st) xs ->
  exists st', for_each scan_one xs st = Returned st'.
Proof.
  revert st. induction xs as [|x xs IH]; intros st [Hrows Hxs];
    [eexists; reflexivity|].
  simpl. unfold scan_chunk at 1.
  destruct (select_chunk (scan_chunks st) (sha x)) as [existing|] eqn:Esel.
  - cbn [bind]. apply IH. cbn [scan_chunks]. split.
    + intros c y Hc Hy. apply Hrows; [exact Hc | right; exact Hy].
    + intros y z Hy Hz. apply Hxs; right; assumption.
  - unfold insert_chunk.
    destruct (existsb _ (scan_chunks st)) eqn:Eid.
    + exfalso. apply existsb_exists in Eid. destruct Eid as [c [Hc Ec]].
      apply string_eqb_true in Ec. cbn [new_chunk_row chunk_id] in Ec.
      assert (Hsha : chunk_sha256 c = sha x)
        by (apply Hrows; [exact Hc | left; reflexivity | exact Ec]).
      unfold select_chunk in Esel.
      apply (find_none _ _ Esel) in Hc. cbn beta in Hc.
      apply string_eqb_false in Hc. contradiction.
    + cbn [bind]. apply IH. cbn [scan_chunks]. split.
      * intros c y Hc Hy Ey. apply in_app_or in Hc. destruct Hc as [Hc|[<-|[]]].
        -- apply Hrows; [exact Hc | right; exact Hy | exact Ey].
        -- cbn [new_chunk_row chunk_id chunk_sha256] in *.
           apply Hxs; [left; reflexivity | right; exact Hy | exact Ey].
      * intros y z Hy Hz. apply Hxs; right; assumption.
Qed.

(** A run returns a backup id when the job is known, the host lets every
    source path be examined and every file under them be read,
    no chunk id stands for two digests and the backup id is new. *)
Lemma run_backup_returns (fs : file_system) (clk : clock) (db : database)
    (job : string) (job_row : job_row) :
  select_job db job = Some job_row ->
  readable fs (job_source_paths job_row) ->
  ids_tell_digests (chunks db) (source_chunks fs (job_source_paths job_row)) ->
  select_backup db (backup_id_of job clk) = None ->
  exists db',
    run_backup zlib_compress fs clk db job
    = Returned (Some (backup_id_of job clk), db').
Proof.
  intros Hjob Hread Hids Hnew. unfold run_backup. rewrite Hjob.
  rewrite scan_sources_readable by exact Hread.
  destruct (for_each_scan_chunk_returns
              (source_chunks fs (job_source_paths job_row))
              {| scan_chunks := chunks db; chunks_used := [];
                 total_size := 0; compressed_size := 0 |} Hids) as [st ->].
  cbn [bind]. unfold insert_backup. cbn [backup_id].
  destruct (existsb _ (backups db)) eqn:E.
  - exfalso. apply find_some_iff_exists in E. destruct E as [b Hb].
    unfold select_backup in Hnew. congruence.
  - cbn [bind]. eexists. reflexivity.
Qed.

(** The logical size a run records is the number of bytes it read, and with
    no byte read the ratio it records is 0. *)
Lemma run_backup_size_and_ratio (fs : file_system) (clk : clock)
    (db db' : database) (job id : string) (job_row : job_row) :
  select_job db job = Some job_row ->
  run_backup zlib_compress fs clk db job = Returned (Some id, db') ->
  exists row,
    backups db' = backups db ++ [row] /\
    backup_size_bytes row
    = sum_Z (map len (source_chunks fs (job_source_paths job_row))) /\
    (backup_size_bytes row = 0 -> backup_dedup_ratio row = 0%Q).
Proof.
  intros Hjob Hrun.
  destruct (run_backup_inv fs clk db db' job id job_row Hjob Hrun)
    as [st [row [[news [_ [_ [_ [_ [_ Hsum]]]]]] [_ [Hbk [_ [_ [Hsize Hratio]]]]]]]].
  exists row. split; [exact Hbk|]. split.
  - rewrite Hsize, Hsum. reflexivity.
  - intros Hzero. rewrite Hratio, <- Hsize, Hzero. reflexivity.
Qed.

End RecorderFacts.

Lemma rows_with_digest_new_rows (zlib_compress : bytes -> option bytes)
    (news : list bytes) (d : string) :
  rows_with_digest (map (new_chunk_row zlib_compress) news) d
  = count_occ string_dec (map Hashlib.sha256_hexdigest news) d.
Proof.
  unfold rows_with_digest. induction news as [|x news IH]; simpl; [reflexivity|].
  destruct (string_dec (Hashlib.sha256_hexdigest x) d) as [->|Hne].
  - rewrite String.eqb_refl. simpl. f_equal. exact IH.
  - apply string_eqb_false in Hne. rewrite Hne. exact IH.
Qed.

(** The rows of a digest after a run that returns: one, if the run read the
    digest and the table had no row for it; otherwise the rows the table had. *)
Lemma run_backup_rows_with_digest
    (zlib_compress : bytes -> option bytes) (fs : file_system) (clk : clock)
    (db db' : database) (job id : string) (job_row : job_row) (d : string) :
  select_job db job = Some job_row ->
  run_backup zlib_compress fs clk db job = Returned (Some id, db') ->
  (In d (map Hashlib.sha256_hexdigest
           (source_chunks fs (job_source_paths job_row))) ->
   rows_with_digest (chunks db') d = Nat.max 1 (rows_with_digest (chunks db) d)) /\
  (~ In d (map Hashlib.sha256_hexdigest
             (source_chunks fs (job_source_paths job_row))) ->
   rows_with_digest (chunks db') d = rows_with_digest (chunks db) d).
Proof.
  intros Hjob Hrun.
  destruct (run_backup_inv zlib_compress fs clk db db' job id job_row Hjob Hrun)
    as [st [row [[news [Hr [Hnews [Hnd [_ [Hall _]]]]]] [Hch _]]]].
  cbn [scan_chunks] in *.
  assert (Hrows : rows_with_digest (chunks db') d
                  = (rows_with_digest (chunks db) d
                     + count_occ string_dec (map Hashlib.sha256_hexdigest news) d)%nat).
  { rewrite Hch, Hr, rows_with_digest_app, rows_with_digest_new_rows.
    reflexivity. }
  assert (Hnew : (0 < count_occ string_dec (map Hashlib.sha256_hexdigest news) d)%nat ->
                 In d (map Hashlib.sha256_hexdigest
                         (source_chunks fs (job_source_paths job_row))) /\
                 rows_with_digest (chunks db) d = 0%nat).
  { intros Hd. apply count_occ_In, in_map_iff in Hd.
    destruct Hd as [y [<- Hy]]. destruct (Hnews y Hy) as [Hin Hsel].
    split; [apply in_map, Hin | apply select_chunk_none_iff, Hsel]. }
  assert (Hle : (count_occ string_dec (map Hashlib.sha256_hexdigest news) d <= 1)%nat)
    by (apply NoDup_count_occ, Hnd).
  split; intros Hd; rewrite Hrows.
  - apply in_map_iff in Hd. destruct Hd as [x [<- Hx]].
    specialize (Hall x Hx). rewrite <- Hch, select_chunk_none_iff, Hrows in Hall.
    lia.
  - destruct (Nat.eq_dec
                (count_occ string_dec (map Hashlib.sha256_hexdigest news) d) 0)
      as [E|E]; [lia|].
    exfalso. apply Hd, Hnew. lia.
Qed.

(** No run gives a digest a second row. *)
Lemma run_backup_keeps_digests_unique
    (zlib_compress : bytes -> option bytes) (fs : file_system) (clk : clock)
    (db : database) (job : string) :
  (forall d, (rows_with_digest (chunks db) d <= 1)%nat) ->
  forall d,
    (rows_with_digest
       (chunks (tables_after db (run_backup zlib_compress fs clk db job))) d <= 1)%nat.
Proof.
  intros Huniq d. destruct (select_job db job) as [job_row|] eqn:Hjob.
  - destruct (run_backup zlib_compress fs clk db job) as [[[id|] db']|e] eqn:Hrun;
      cbn [tables_after]; [| |apply Huniq].
    + destruct (run_backup_rows_with_digest zlib_compress fs clk db db' job id
                  job_row d Hjob Hrun) as [Hin Hout].
      specialize (Huniq d).
      destruct (in_dec string_dec d
                  (map Hashlib.sha256_hexdigest
                     (source_chunks fs (job_source_paths job_row)))) as [H|H].
      * rewrite (Hin H). lia.
      * rewrite (Hout H). exact Huniq.
    + unfold run_backup in Hrun. rewrite Hjob in Hrun.
      destruct (for_each _ _ _); [|discriminate]. cbn [bind] in Hrun.
      destruct (insert_backup _ _); discriminate.
  - unfold run_backup. rewrite Hjob. apply Huniq.
Qed.

(** C2, as the code has it: a run that returns leaves, for every digest it
    read, the rows the table had for it, or exactly one new row if it had
    none; the rows the table had are all still there, unchanged and in their
    places, the new rows come after them, and the [references] column of a new
    row is the empty dictionary; the occurrences are counted in the manifest
    of the new backup, which holds for each digest the number of times the run
    read it. *)
Theorem run_backup_stores_digest_once
    (zlib_compress : bytes -> option bytes) (fs : file_system) (clk : clock)
    (db db' : database) (job id : string) (job_row : job_row) :
  select_job db job = Some job_row ->
  run_backup zlib_compress fs clk db job = Returned (Some id, db') ->
  let digests :=
    map Hashlib.sha256_hexdigest (source_chunks fs (job_source_paths job_row)) in
  (forall d, In d digests ->
             rows_with_digest (chunks db') d
             = Nat.max 1 (rows_with_digest (chunks db) d)) /\
  (forall d, ~ In d digests ->
             rows_with_digest (chunks db') d = rows_with_digest (chunks db) d) /\
  (exists new_rows,
     chunks db' = chunks db ++ new_rows /\
     forall c, In c new_rows -> chunk_references c = []) /\
  exists row,
    backups db' = backups db ++ [row] /\
    backup_id row = id /\
    forall d, dict_get (backup_chunk_ids row) d 0
              = Z.of_nat (count_occ string_dec digests d).
Proof.
  intros Hjob Hrun digests.
  destruct (run_backup_inv zlib_compress fs clk db db' job id job_row Hjob Hrun)
    as [st [row [[news [Hr [_ [_ [Hcnt _]]]]] [Hch [Hbk [Hid [Hman _]]]]]]].
  cbn [scan_chunks chunks_used] in *.
  split; [|split; [|split]].
  - intros d.
    apply (run_backup_rows_with_digest zlib_compress fs clk db db' job id job_row d
             Hjob Hrun).
  - intros d.
    apply (run_backup_rows_with_digest zlib_compress fs clk db db' job id job_row d
             Hjob Hrun).
  - exists (map (new_chunk_row zlib_compress) news).
    split; [rewrite Hch; exact Hr|].
    intros c Hc. apply in_map_iff in Hc. destruct Hc as [y [<- _]]. reflexivity.
  - exists row. split; [exact Hbk|]. split; [exact Hid|].
    intros d. rewrite Hman, Hcnt. reflexivity.
Qed.

(** C2 on the run that backs up two files holding the byte "a". *)
Lemma run_backup_stores_digest_once_witness :
  (forall d, In d [digest_a; digest_a] ->
             rows_with_digest (chunks db_a_twice) d
             = Nat.max 1 (rows_with_digest (chunks fresh_db) d)) /\
  (forall d, ~ In d [digest_a; digest_a] ->
             rows_with_digest (chunks db_a_twice) d
             = rows_with_digest (chunks fresh_db) d) /\
  (exists new_rows,
     chunks db_a_twice = chunks fresh_db ++ new_rows /\
     forall c, In c new_rows -> chunk_references c = []) /\
  exists row,
    backups db_a_twice = backups fresh_db ++ [row] /\
    backup_id row = "f170005861f7" /\
    forall d, dict_get (backup_chunk_ids row) d 0
              = Z.of_nat (count_occ string_dec [digest_a; digest_a] d).
Proof.
  exact (run_backup_stores_digest_once zlib_compress_short
           (two_files (encode "a")) monday_morning fresh_db db_a_twice
           "bc59759a35c8" "f170005861f7" docs_job eq_refl
           ltac:(vm_compute; reflexivity)).
Defined.

(** C2 fails as stated: after backing up two files of the same content the
    one chunk row has an empty [references] column, not a count of 2; the 2
    is in the manifest of the backup. *)
Lemma chunk_row_holds_no_reference_count :
  tables_after fresh_db
    (run_backup zlib_compress_short (two_files (encode "a")) monday_morning
                fresh_db "bc59759a35c8")
  = db_a_twice /\
  map chunk_references (chunks db_a_twice) = [[]] /\
  map backup_chunk_ids (backups db_a_twice) = [[(digest_a, 2)]].
Proof. vm_compute. repeat split. Qed.

(** C7, as the code has it: the row of a new chunk records the length of the
    chunk and the length of what [zlib.compress(chunk_data, 6)] returned,
    whatever the job's compression tag and whether or not that is shorter;
    the length of the chunk itself is recorded only when [zlib.compress]
    raised. *)
Theorem run_backup_records_zlib_length
    (zlib_compress : bytes -> option bytes) (fs : file_system) (clk : clock)
    (db db' : database) (job id : string) (job_row : job_row) (c : chunk_row) :
  select_job db job = Some job_row ->
  run_backup zlib_compress fs clk db job = Returned (Some id, db') ->
  In c (chunks db') ->
  In c (chunks db) \/
  exists chunk_data,
    In chunk_data (source_chunks fs (job_source_paths job_row)) /\
    chunk_sha256 c = Hashlib.sha256_hexdigest chunk_data /\
    chunk_size c = len chunk_data /\
    chunk_compressed_size c
    = match zlib_compress chunk_data with
      | Some compressed => len compressed
      | None => len chunk_data
      end.
Proof.
  intros Hjob Hrun Hc.
  destruct (run_backup_inv zlib_compress fs clk db db' job id job_row Hjob Hrun)
    as [st [row [[news [Hr [Hnews _]]] [Hch _]]]].
  cbn [scan_chunks] in *. rewrite Hch, Hr in Hc. apply in_app_or in Hc.
  destruct Hc as [Hc|Hc]; [left; exact Hc | right].
  apply in_map_iff in Hc. destruct Hc as [y [<- Hy]].
  exists y. split; [apply Hnews, Hy|]. split; [reflexivity|].
  split; [reflexivity|]. cbn [new_chunk_row chunk_compressed_size].
  unfold compressed_or_raw. destruct (zlib_compress y); reflexivity.
Qed.

(** C7 on the same run, for the row of the chunk "a". *)
Lemma run_backup_records_zlib_length_witness :
  In chunk_a (chunks fresh_db) \/
  exists chunk_data,
    In chunk_data (source_chunks (two_files (encode "a")) ["/data"]) /\
    chunk_sha256 chunk_a = Hashlib.sha256_hexdigest chunk_data /\
    chunk_size chunk_a = len chunk_data /\
    chunk_compressed_size chunk_a
    = match zlib_compress_short chunk_data with
      | Some compressed => len compressed
      | None => len chunk_data
      end.
Proof.
  exact (run_backup_records_zlib_length zlib_compress_short
           (two_files (encode "a")) monday_morning fresh_db db_a_twice
           "bc59759a35c8" "f170005861f7" docs_job chunk_a eq_refl
           ltac:(vm_compute; reflexivity) (or_introl eq_refl)).
Defined.

(** C7 fails as stated: the chunk of the one byte "a" is recorded with a
    stored size of 9 bytes, the length of its zlib stream
    (78 9c 4b 04 00 00 62 00 62), for a job whose compression tag is "lz4". *)
Lemma stored_size_exceeds_plaintext_size :
  map job_compression (jobs fresh_db) = ["lz4"] /\
  zlib_compress_short (encode "a")
  = Some [x78; x9c; x4b; x04; x00; x00; x62; x00; x62] /\
  map (fun c => (chunk_size c, chunk_compressed_size c))
      (chunks (tables_after fresh_db
                 (run_backup zlib_compress_short (one_file (encode "a"))
                             monday_morning fresh_db "bc59759a35c8")))
  = [(1, 9)].
Proof. vm_compute. repeat split. Qed.

(** C1: the code at the failing input.  A file holding the byte "a" is
    backed up and the backup restored into a directory the host lets it make
    and write: [restore] returns [True], and the only file it wrote is
    [restored_ca978112], holding the 22 bytes of CHUNK_DATA_PLACEHOLDER;
    nothing is written at the file's own path. *)
Theorem restore_writes_placeholder :
  run_backup zlib_compress_short (one_file (encode "a")) monday_morning
             fresh_db "bc59759a35c8"
  = Returned (Some "f170005861f7",
              {| jobs :=
                   [{| job_id := "bc59759a35c8"; job_name := "docs";
                       job_source_paths := ["/data"]; job_exclude_patterns := [];
                       job_destination := "/backups"; job_schedule := "daily";
                       job_compression := "lz4";
                       job_last_run := Some 1709546400004911;
                       job_size_bytes := 1; job_status := "completed" |}];
                 backups :=
                   [{| backup_id := "f170005861f7"; backup_job_id := "bc59759a35c8";
                       backup_timestamp := 1709546400004567;
                       backup_size_bytes := 1; backup_dedup_ratio := 9 # 1;
                       backup_chunk_ids := [(digest_a, 1)] |}];
                 chunks := [chunk_a] |}) /\
  (let db' := tables_after fresh_db
                (run_backup zlib_compress_short (one_file (encode "a"))
                            monday_morning fresh_db "bc59759a35c8") in
   restore willing_host db' "f170005861f7" "/tmp/out"
   = {| restore_result := Returned true; restore_made_dir := true;
        restore_writes :=
          [("restored_ca978112", encode "CHUNK_DATA_PLACEHOLDER")] |} /\
   read_back (restore_writes (restore willing_host db' "f170005861f7" "/tmp/out"))
             "one.txt"
   = None /\
   read_back (restore_writes (restore willing_host db' "f170005861f7" "/tmp/out"))
             "/data/one.txt"
   = None /\
   read_back (restore_writes (restore willing_host db' "f170005861f7" "/tmp/out"))
             "restored_ca978112"
   <> Some (encode "a")).
Proof.
  split; [vm_compute; reflexivity|]. cbv zeta.
  split; [vm_compute; reflexivity|].
  split; [vm_compute; reflexivity|].
  split; [vm_compute; reflexivity|].
  vm_compute. discriminate.
Qed.

(** C6: the code at the failing input.  A run over an empty directory reads
    no byte and records a dedup ratio of 0, where [get_stats] reports 1.0 for
    a store without bytes. *)
Theorem run_backup_records_ratio_zero :
  map (fun b => (backup_size_bytes b, backup_dedup_ratio b))
      (backups (tables_after fresh_db
                  (run_backup zlib_compress_short empty_directory monday_morning
                              fresh_db "bc59759a35c8")))
  = [(0, 0%Q)] /\
  stats_dedup_ratio (get_stats fresh_db) = 1%Q.
Proof. vm_compute. split; reflexivity. Qed.

(** * Further facts *)

(** ** The read loop *)

Lemma read_chunks_count (fuel : nat) (content : bytes) :
  (length content < fuel)%nat ->
  length (read_chunks fuel content)
  = ((length content + (CHUNK_SIZE - 1)) / CHUNK_SIZE)%nat.
Proof.
  pose proof CHUNK_SIZE_positive as Hpos.
  revert content. induction fuel as [|fuel IH]; intros content H; [lia|].
  cbn [read_chunks]. destruct (firstn CHUNK_SIZE content) as [|b chunk] eqn:E.
  - destruct content as [|b content].
    + cbn [length read_chunks]. symmetry. apply Nat.div_small. lia.
    + destruct CHUNK_SIZE; [lia | discriminate E].
  - assert (Hne : (0 < length content)%nat)
      by (destruct content; [discriminate E | simpl; lia]).
    cbn [length]. rewrite IH by (rewrite length_skipn; lia).
    rewrite length_skipn.
    destruct (Nat.le_gt_cases CHUNK_SIZE (length content)) as [Hge|Hlt].
    + replace (length content + (CHUNK_SIZE - 1))%nat
        with ((length content - CHUNK_SIZE + (CHUNK_SIZE - 1)) + 1 * CHUNK_SIZE)%nat
        by lia.
      rewrite Nat.div_add by lia. lia.
    + replace (length content - CHUNK_SIZE)%nat with 0%nat by lia.
      rewrite (Nat.div_small (0 + (CHUNK_SIZE - 1))) by lia.
      apply (Nat.div_unique _ _ 1 (length content - 1)); lia.
Qed.

(** X1: the read loop cuts a file into chunks that, put end to end, are the
    file; every chunk holds between 1 and 4096 bytes, and a file of n bytes
    gives ceil(n / 4096) chunks (none for an empty file). *)
Theorem file_chunks_cover (content : bytes) :
  concat (file_chunks content) = content /\
  (forall chunk_data, In chunk_data (file_chunks content) ->
                      (0 < length chunk_data <= CHUNK_SIZE)%nat) /\
  length (file_chunks content)
  = ((length content + (CHUNK_SIZE - 1)) / CHUNK_SIZE)%nat.
Proof.
  split; [apply file_chunks_concat|]. split.
  - intros chunk_data. apply read_chunks_sizes.
  - apply read_chunks_count. lia.
Qed.

(** ** What a run leaves in the tables *)

Lemma known_digests_of_rows (rows : list chunk_row) (d : string) :
  existsb (String.eqb d) (map chunk_sha256 rows) = true
  <-> select_chunk rows d <> None.
Proof.
  unfold select_chunk. induction rows as [|c rows IH]; simpl.
  - split; [discriminate | intros H; contradiction].
  - rewrite (String.eqb_sym d). destruct (chunk_sha256 c =? d)%string; simpl.
    + split; [discriminate | reflexivity].
    + exact IH.
Qed.

Lemma keys_dict_set (d : dict) (k x : string) (v : Z) :
  In x (keys (dict_set d k v)) -> x = k \/ In x (keys d).
Proof.
  unfold keys. induction d as [|[k0 v0] d IH]; simpl.
  - intros [<-|[]]. left. reflexivity.
  - destruct (k0 =? k)%string eqn:E; simpl.
    + intros [<-|H]; right; [left; reflexivity | right; exact H].
    + intros [<-|H]; [right; left; reflexivity|].
      destruct (IH H) as [->|H']; [left; reflexivity | right; right; exact H'].
Qed.

Lemma first_new_subset (known : list string) (xs : list bytes) (x : bytes) :
  In x (first_new known xs) -> In x xs.
Proof.
  revert known. induction xs as [|y xs IH]; simpl; intros known H; [exact H|].
  destruct (existsb _ known); [right; apply (IH _ H)|].
  destruct H as [<-|H]; [left; reflexivity | right; apply (IH _ H)].
Qed.

Lemma source_chunks_of_file (fs : file_system) (paths : list string) (x : bytes) :
  In x (source_chunks fs paths) ->
  exists content, In content (source_contents fs paths) /\ In x (file_chunks content).
Proof.
  unfold source_chunks, source_contents. rewrite in_flat_map.
  intros [p [Hp Hx]].
  destruct (fs p) as [[files|]|e] eqn:Efs; [|contradiction|contradiction].
  apply in_flat_map in Hx. destruct Hx as [f [Hf Hx]].
  destruct (snd f) as [content|] eqn:Ef; [|contradiction].
  exists content. split; [|exact Hx].
  apply in_flat_map. exists p. split; [exact Hp|]. rewrite Efs.
  apply in_flat_map. exists f. split; [exact Hf|]. rewrite Ef. left. reflexivity.
Qed.

Lemma sum_Z_app (l1 l2 : list Z) : sum_Z (l1 ++ l2) = sum_Z l1 + sum_Z l2.
Proof. unfold sum_Z. induction l1 as [|a l1 IH]; simpl; lia. Qed.

Lemma len_concat (chunks : list bytes) : len (concat chunks) = sum_Z (map len chunks).
Proof.
  induction chunks as [|c chunks IH]; simpl; [reflexivity|].
  unfold len in *. rewrite length_app. lia.
Qed.

(** The bytes of the chunks a run reads are the bytes of the files it reads. *)
Lemma source_chunks_bytes (fs : file_system) (paths : list string) :
  sum_Z (map len (source_chunks fs paths))
  = sum_Z (map len (source_contents fs paths)).
Proof.
  unfold source_chunks, source_contents.
  induction paths as [|p paths IH]; [reflexivity|].
  cbn [flat_map]. rewrite !map_app, !sum_Z_app. f_equal; [|exact IH].
  destruct (fs p) as [[files|]|e]; [|reflexivity|reflexivity].
  induction files as [|f files IHf]; [reflexivity|].
  cbn [flat_map]. rewrite !map_app, !sum_Z_app. f_equal; [|exact IHf].
  destruct (snd f) as [content|]; [|reflexivity].
  rewrite <- len_concat, file_chunks_concat. unfold sum_Z. simpl. lia.
Qed.

Section TraceFacts.

Variable zlib_compress : bytes -> option bytes.

Local Abbreviation sha := Hashlib.sha256_hexdigest.
Local Abbreviation new_row := (new_chunk_row zlib_compress).
Local Abbreviation scan_one := (scan_chunk zlib_compress).

(** The loops, chunk by chunk: the rows appended are those of [first_new];
    the stored sizes added up are those the final table holds; the manifest
    has no key but digests that were read. *)
Lemma scan_trace (xs : list bytes) (st st' : scan) (known : list string) :
  for_each scan_one xs st = Returned st' ->
  (forall d, existsb (String.eqb d) known = true
             <-> select_chunk (scan_chunks st) d <> None) ->
  scan_chunks st' = scan_chunks st ++ map new_row (first_new known xs) /\
  compressed_size st'
  = compressed_size st + sum_Z (map (stored_size_of (scan_chunks st')) xs) /\
  (forall d, In d (keys (chunks_used st')) ->
             In d (keys (chunks_used st)) \/ In d (map sha xs)).
Proof.
  revert st known. induction xs as [|x xs IH]; intros st known H Hknown.
  - injection H as <-. simpl. rewrite app_nil_r.
    split; [reflexivity|]. split; [lia | auto].
  - simpl in H. destruct (scan_one st x) as [st1|e] eqn:E1; [|discriminate].
    cbn [bind] in H. unfold scan_chunk in E1. cbn [first_new].
    destruct (select_chunk (scan_chunks st) (sha x)) as [existing|] eqn:Esel.
    + injection E1 as <-.
      assert (Hin : existsb (String.eqb (sha x)) known = true)
        by (apply Hknown; rewrite Esel; discriminate).
      rewrite Hin.
      destruct (IH _ known H Hknown) as [Hrows [Hsize Hkeys]].
      cbn [scan_chunks compressed_size chunks_used] in *.
      split; [exact Hrows|]. split.
      * rewrite Hsize. cbn [map sum_Z fold_right]. fold (sum_Z (map (stored_size_of (scan_chunks st')) xs)).
        unfold stored_size_of at 2. rewrite Hrows, select_chunk_app, Esel. lia.
      * intros d Hd. destruct (Hkeys d Hd) as [Hd'|Hd']; [|right; right; exact Hd'].
        apply keys_dict_set in Hd'. destruct Hd' as [->|Hd'];
          [right; left; reflexivity | left; exact Hd'].
    + unfold insert_chunk in E1.
      destruct (existsb _ (scan_chunks st)); [discriminate|].
      cbn [bind] in E1. injection E1 as <-.
      assert (Hout : existsb (String.eqb (sha x)) known = false).
      { apply not_true_iff_false. intros Hyes. apply Hknown in Hyes.
        contradiction. }
      rewrite Hout.
      assert (Hknown1 : forall d,
                 existsb (String.eqb d) (sha x :: known) = true
                 <-> select_chunk (scan_chunks st ++ [new_row x]) d <> None).
      { intros d. cbn [existsb]. rewrite select_chunk_app.
        change (select_chunk [new_row x] d)
          with (if (sha x =? d)%string then Some (new_row x) else None).
        rewrite (String.eqb_sym d), orb_true_iff, Hknown.
        destruct (select_chunk (scan_chunks st) d); destruct (sha x =? d)%string;
          first [ split; [intros _; discriminate
                         | intros _; first [left; reflexivity | right; discriminate]]
                | split; [intros [H0|H0]; [discriminate H0 | exact H0]
                         | intros H0; right; exact H0] ]. }
      destruct (IH _ (sha x :: known) H Hknown1) as [Hrows [Hsize Hkeys]].
      cbn [scan_chunks compressed_size chunks_used] in *.
      split; [rewrite Hrows, <- app_assoc; reflexivity|]. split.
      * rewrite Hsize. cbn [map sum_Z fold_right]. fold (sum_Z (map (stored_size_of (scan_chunks st')) xs)).
        unfold stored_size_of at 2.
        rewrite Hrows, <- app_assoc, select_chunk_app, Esel.
        cbn [app select_chunk find new_chunk_row chunk_sha256].
        rewrite String.eqb_refl.
        change (chunk_compressed_size (new_row x))
          with (len (compressed_or_raw zlib_compress x)).
        lia.
      * intros d Hd. destruct (Hkeys d Hd) as [Hd'|Hd']; [|right; right; exact Hd'].
        apply keys_dict_set in Hd'. destruct Hd' as [->|Hd'];
          [right; left; reflexivity | left; exact Hd'].
Qed.

(** Every column a run that returns has written. *)
Lemma run_backup_trace (fs : file_system) (clk : clock) (db db' : database)
    (job id : string) (job_row : job_row) :
  select_job db job = Some job_row ->
  run_backup zlib_compress fs clk db job = Returned (Some id, db') ->
  let xs := source_chunks fs (job_source_paths job_row) in
  let size := sum_Z (map len xs) in
  exists manifest,
    id = backup_id_of job clk /\
    select_backup db id = None /\
    chunks db'
    = chunks db ++ map new_row (first_new (map chunk_sha256 (chunks db)) xs) /\
    backups db'
    = backups db ++
      [{| backup_id := id; backup_job_id := job;
          backup_timestamp := utcnow_backup clk;
          backup_size_bytes := size;
          backup_dedup_ratio :=
            if 0 <? size
            then Qmake (sum_Z (map (stored_size_of (chunks db')) xs)) (Z.to_pos size)
            else 0%Q;
          backup_chunk_ids := manifest |}] /\
    jobs db'
    = map (fun j => if (job_id j =? job)%string then completed clk size j else j)
          (jobs db) /\
    (forall d, In d (keys manifest) -> In d (map sha xs)) /\
    (forall x, In x xs -> select_chunk (chunks db') (sha x) <> None).
Proof.
  intros Hjob H xs size. unfold run_backup in H. rewrite Hjob in H.
  destruct (for_each (scan_source zlib_compress fs) (job_source_paths job_row) _)
    as [st|e] eqn:Escan; [|discriminate].
  cbn [bind] in H. unfold insert_backup in H. cbn [backup_id] in H.
  destruct (existsb _ (backups db)) eqn:Eid; [discriminate|].
  cbn [bind] in H. injection H as Hid <-.
  apply scan_sources_flat in Escan. fold xs in Escan.
  destruct (for_each_scan_chunk_effect zlib_compress xs _ st Escan)
    as [news [_ [_ [_ [_ [Hall Hsum]]]]]]; [intros d _; reflexivity|].
  destruct (scan_trace xs _ st (map chunk_sha256 (chunks db)) Escan)
    as [Hrows [Hsize Hkeys]]; [apply known_digests_of_rows|].
  cbn [scan_chunks total_size compressed_size chunks_used] in *.
  assert (Htot : total_size st = size) by (rewrite Hsum; reflexivity).
  exists (chunks_used st). cbn [chunks backups jobs].
  split; [symmetry; exact Hid|]. split.
  { unfold select_backup. destruct (find _ (backups db)) as [b|] eqn:Ef;
      [|reflexivity].
    exfalso. apply not_true_iff_false in Eid. apply Eid.
    apply find_some_iff_exists. exists b. rewrite <- Hid in Ef. exact Ef. }
  split; [exact Hrows|]. split.
  { rewrite Hid, Htot, Hsize. reflexivity. }
  split.
  { apply map_ext. intros j. rewrite Htot. reflexivity. }
  split; [|exact Hall].
  intros d Hd. destruct (Hkeys d Hd) as [[]|Hd']. exact Hd'.
Qed.

End TraceFacts.

Lemma find_app_some {A : Type} (p : A -> bool) (l l' : list A) (a : A) :
  find p l = Some a -> find p (l ++ l') = Some a.
Proof.
  induction l as [|x l IH]; simpl; [discriminate|].
  destruct (p x); [auto | exact IH].
Qed.

Lemma find_app_none {A : Type} (p : A -> bool) (l l' : list A) :
  find p l = None -> find p (l ++ l') = find p l'.
Proof.
  induction l as [|x l IH]; simpl; [reflexivity|].
  destruct (p x); [discriminate | exact IH].
Qed.

(** [UPDATE jobs ... WHERE id = ?] changes the row of that id and no other. *)
Lemma select_job_after_update (clk : clock) (size : Z) (rows : list job_row)
    (job other : string) :
  find (fun j => (job_id j =? other)%string)
       (map (fun j => if (job_id j =? job)%string then completed clk size j else j)
            rows)
  = if (other =? job)%string
    then option_map (completed clk size)
                    (find (fun j => (job_id j =? other)%string) rows)
    else find (fun j => (job_id j =? other)%string) rows.
Proof.
  induction rows as [|j rows IH]; simpl.
  - destruct (other =? job)%string; reflexivity.
  - destruct (job_id j =? job)%string eqn:Ej;
      destruct (job_id j =? other)%string eqn:Eo;
      cbn [completed job_id]; rewrite ?Eo; try exact IH.
    + apply string_eqb_true in Ej, Eo. rewrite <- Ej, <- Eo, String.eqb_refl.
      reflexivity.
    + apply string_eqb_true in Eo. rewrite <- Eo, Ej. reflexivity.
Qed.

(** X2: the chunks table after a run that returns is the table before it
    followed by one row per digest that had no row, in the order in which the
    run first read each of them; no earlier row is changed, moved or removed. *)
Theorem run_backup_appends_first_new
    (zlib_compress : bytes -> option bytes) (fs : file_system) (clk : clock)
    (db db' : database) (job id : string) (job_row : job_row) :
  select_job db job = Some job_row ->
  run_backup zlib_compress fs clk db job = Returned (Some id, db') ->
  chunks db'
  = chunks db ++
    map (new_chunk_row zlib_compress)
        (first_new (map chunk_sha256 (chunks db))
                   (source_chunks fs (job_source_paths job_row))).
Proof.
  intros Hjob Hrun.
  destruct (run_backup_trace zlib_compress fs clk db db' job id job_row Hjob Hrun)
    as [manifest [_ [_ [Hrows _]]]].
  exact Hrows.
Qed.

(** X2 on the run over [files_a_b] that follows the run over two files of
    the byte "a": the row of "a" stays, the row of "b" is appended. *)
Lemma run_backup_appends_first_new_witness :
  chunks (tables_after db_a_twice
            (run_backup zlib_compress_short files_a_b tuesday_morning db_a_twice
                        "bc59759a35c8"))
  = chunks db_a_twice ++
    map (new_chunk_row zlib_compress_short)
        (first_new (map chunk_sha256 (chunks db_a_twice))
                   (source_chunks files_a_b ["/data"])).
Proof.
  exact (run_backup_appends_first_new zlib_compress_short files_a_b
           tuesday_morning db_a_twice _ "bc59759a35c8" "bb69547c7d16" _
           eq_refl ltac:(vm_compute; reflexivity)).
Defined.

(** X3: a run that returns appends one backup row: its id is the first 12
    hex digits of the MD5 of the job id and the clock reading, its job id and
    timestamp are those of the run, and its size is the number of bytes of the
    files read.  The job's row gets that size, the status "completed" and the
    time of the update; the rows of the other jobs are left as they were. *)
Theorem run_backup_records_the_run
    (zlib_compress : bytes -> option bytes) (fs : file_system) (clk : clock)
    (db db' : database) (job id : string) (job_row : job_row) :
  select_job db job = Some job_row ->
  run_backup zlib_compress fs clk db job = Returned (Some id, db') ->
  let size := sum_Z (map len (source_contents fs (job_source_paths job_row))) in
  (exists row,
      backups db' = backups db ++ [row] /\
      backup_id row = id /\ id = backup_id_of job clk /\
      backup_job_id row = job /\
      backup_timestamp row = utcnow_backup clk /\
      backup_size_bytes row = size) /\
  select_job db' job = Some (completed clk size job_row) /\
  (forall other, other <> job -> select_job db' other = select_job db other).
Proof.
  intros Hjob Hrun size.
  destruct (run_backup_trace zlib_compress fs clk db db' job id job_row Hjob Hrun)
    as [manifest [Hid [_ [_ [Hbk [Hjobs _]]]]]].
  rewrite source_chunks_bytes in Hbk, Hjobs. fold size in Hbk, Hjobs.
  split; [|split].
  - eexists. split; [exact Hbk|]. cbn. repeat split. exact Hid.
  - unfold select_job. rewrite Hjobs, select_job_after_update, String.eqb_refl.
    unfold select_job in Hjob. rewrite Hjob. reflexivity.
  - intros other Hne. unfold select_job.
    rewrite Hjobs, select_job_after_update.
    apply string_eqb_false in Hne. rewrite Hne. reflexivity.
Qed.

(** X3 on the Monday run over [files_a_b]. *)
Lemma run_backup_records_the_run_witness :
  (exists row,
      backups db_a_b = backups fresh_db ++ [row] /\
      backup_id row = "f170005861f7" /\
      "f170005861f7" = backup_id_of "bc59759a35c8" monday_morning /\
      backup_job_id row = "bc59759a35c8" /\
      backup_timestamp row = utcnow_backup monday_morning /\
      backup_size_bytes row = 2) /\
  select_job db_a_b "bc59759a35c8" = Some (completed monday_morning 2 docs_job) /\
  (forall other, other <> "bc59759a35c8" ->
                 select_job db_a_b other = select_job fresh_db other).
Proof.
  exact (run_backup_records_the_run zlib_compress_short files_a_b monday_morning
           fresh_db db_a_b "bc59759a35c8" "f170005861f7" docs_job eq_refl
           ltac:(vm_compute; reflexivity)).
Defined.

(** X4: the dedup ratio a run records is, for a run that read at least one
    byte, the sum of the stored sizes of the chunks it read, a chunk read
    several times counted every time, over the number of bytes read; sharing
    a chunk between files does not lower it. *)
Theorem run_backup_ratio_counts_every_read
    (zlib_compress : bytes -> option bytes) (fs : file_system) (clk : clock)
    (db db' : database) (job id : string) (job_row : job_row) :
  select_job db job = Some job_row ->
  run_backup zlib_compress fs clk db job = Returned (Some id, db') ->
  let xs := source_chunks fs (job_source_paths job_row) in
  exists row,
    backups db' = backups db ++ [row] /\
    backup_dedup_ratio row
    = if 0 <? sum_Z (map len xs)
      then Qmake (sum_Z (map (stored_size_of (chunks db')) xs))
                 (Z.to_pos (sum_Z (map len xs)))
      else 0%Q.
Proof.
  intros Hjob Hrun xs.
  destruct (run_backup_trace zlib_compress fs clk db db' job id job_row Hjob Hrun)
    as [manifest [_ [_ [_ [Hbk _]]]]].
  eexists. split; [exact Hbk | reflexivity].
Qed.

(** X4 on two files of the byte "a": one row of stored size 9, read twice,
    gives 18 over 2. *)
Lemma run_backup_ratio_counts_every_read_witness :
  exists row,
    backups db_a_twice = backups fresh_db ++ [row] /\
    backup_dedup_ratio row
    = if 0 <? sum_Z (map len [encode "a"; encode "a"])
      then Qmake (sum_Z (map (stored_size_of (chunks db_a_twice))
                             [encode "a"; encode "a"]))
                 (Z.to_pos (sum_Z (map len [encode "a"; encode "a"])))
      else 0%Q.
Proof.
  exact (run_backup_ratio_counts_every_read zlib_compress_short
           (two_files (encode "a")) monday_morning fresh_db db_a_twice
           "bc59759a35c8" "f170005861f7" docs_job eq_refl
           ltac:(vm_compute; reflexivity)).
Defined.

(** ** Backups stay verifiable *)

Lemma verify_grows (db db' : database) (b : string) (more : list backup_row)
    (rows : list chunk_row) :
  backups db' = backups db ++ more ->
  chunks db' = chunks db ++ rows ->
  verify db b = true -> verify db' b = true.
Proof.
  intros Hbk Hch H. apply verify_true_iff in H. destruct H as [row [Hrow Hall]].
  apply verify_true_iff. exists row. split.
  - unfold select_backup in *. rewrite Hbk. apply find_app_some, Hrow.
  - intros d Hd. destruct (Hall d Hd) as [c Hc]. rewrite Hch.
    destruct (select_chunk (chunks db ++ rows) d) as [c'|] eqn:E;
      [eexists; reflexivity|].
    exfalso. apply (select_chunk_grows (chunks db) rows d); [congruence | exact E].
Qed.



(** X6: no later run invalidates a backup: a backup that passes [verify]
    still passes it after any [run_backup], whether that run returns or
    raises. *)
Theorem run_backup_keeps_backups_valid
    (zlib_compress : bytes -> option bytes) (fs : file_system) (clk : clock)
    (db : database) (job b : string) :
  verify db b = true ->
  verify (tables_after db (run_backup zlib_compress fs clk db job)) b = true.
Proof.
  intros Hv. destruct (select_job db job) as [job_row|] eqn:Hjob.
  - destruct (run_backup zlib_compress fs clk db job) as [[[id|] db']|e] eqn:Hrun;
      cbn [tables_after]; [| |exact Hv].
    + destruct (run_backup_trace zlib_compress fs clk db db' job id job_row
                  Hjob Hrun) as [manifest [_ [_ [Hrows [Hbk _]]]]].
      exact (verify_grows db db' b _ _ Hbk Hrows Hv).
    + unfold run_backup in Hrun. rewrite Hjob in Hrun.
      destruct (for_each _ _ _); [|discriminate]. cbn [bind] in Hrun.
      destruct (insert_backup _ _); discriminate.
  - unfold run_backup. rewrite Hjob. exact Hv.
Qed.

Lemma run_backup_keeps_backups_valid_witness :
  verify (tables_after db_a_twice
            (run_backup zlib_compress_short files_a_b tuesday_morning db_a_twice
                        "bc59759a35c8")) "f170005861f7" = true.
Proof.
  apply (run_backup_keeps_backups_valid zlib_compress_short files_a_b
           tuesday_morning db_a_twice "bc59759a35c8" "f170005861f7").
  reflexivity.
Defined.

Lemma select_backup_of_deleted_id (ids : list string) (rows : list backup_row)
    (b : string) :
  In b ids ->
  find (fun r => (backup_id r =? b)%string)
       (filter (fun r => negb (id_in ids r)) rows) = None.
Proof.
  intros Hb. induction rows as [|r rows IH]; simpl; [reflexivity|].
  destruct (id_in ids r) eqn:E; simpl; [exact IH|].
  destruct (backup_id r =? b)%string eqn:Er; [|exact IH].
  apply string_eqb_true in Er. apply not_true_iff_false in E.
  exfalso. apply E, id_in_true. rewrite Er. exact Hb.
Qed.

Lemma select_backup_after_delete (ids : list string) (rows : list backup_row)
    (b : string) (row : backup_row) :
  find (fun r => (backup_id r =? b)%string)
       (filter (fun r => negb (id_in ids r)) rows) = Some row ->
  find (fun r => (backup_id r =? b)%string) rows = Some row.
Proof.
  induction rows as [|r rows IH]; simpl; [discriminate|].
  destruct (backup_id r =? b)%string eqn:Er.
  - destruct (id_in ids r) eqn:E; simpl.
    + intros H. apply string_eqb_true in Er. apply id_in_true in E.
      rewrite Er in E.
      rewrite (select_backup_of_deleted_id ids rows b E) in H. discriminate.
    + rewrite Er. auto.
  - destruct (id_in ids r); simpl; [exact IH|]. rewrite Er. exact IH.
Qed.

(** X7: [prune] does not invalidate what it keeps: a backup that passes
    [verify] and is still in the table after [prune] passes [verify]
    afterwards (no chunk is ever removed). *)
Theorem prune_keeps_backups_valid (db : database) (job b : string)
    (keep_daily keep_weekly keep_monthly : Z) :
  verify db b = true ->
  select_backup (snd (prune db job keep_daily keep_weekly keep_monthly)) b <> None ->
  verify (snd (prune db job keep_daily keep_weekly keep_monthly)) b = true.
Proof.
  intros Hv Hkept.
  destruct (prune_backups db job keep_daily keep_weekly keep_monthly)
    as [ids [E _]].
  rewrite E in *. cbn [snd] in *.
  apply verify_true_iff in Hv. destruct Hv as [row [Hrow Hall]].
  apply verify_true_iff. unfold select_backup in *. cbn [backups chunks] in *.
  destruct (find _ (filter _ (backups db))) as [row'|] eqn:Ef; [|contradiction].
  apply select_backup_after_delete in Ef. rewrite Hrow in Ef. injection Ef as <-.
  exists row. split; [reflexivity | exact Hall].
Qed.

(** X7 on [week_db] with keep-counts 1, 1 and 0, for the Tuesday backup. *)
Lemma prune_keeps_backups_valid_witness :
  verify (snd (prune week_db "bc59759a35c8" 1 1 0)) "bb69547c7d16" = true.
Proof.
  apply (prune_keeps_backups_valid week_db "bc59759a35c8" "bb69547c7d16" 1 1 0).
  - reflexivity.
  - vm_compute. discriminate.
Defined.

(** ** The store and its statistics *)

Lemma first_new_all_known (known : list string) (xs : list bytes) :
  (forall x, In x xs ->
             existsb (String.eqb (Hashlib.sha256_hexdigest x)) known = true) ->
  first_new known xs = [].
Proof.
  induction xs as [|x xs IH]; intros H; [reflexivity|].
  cbn [first_new]. rewrite (H x (or_introl eq_refl)).
  apply IH. intros y Hy. apply H. right. exact Hy.
Qed.

(** X8: backing up unchanged files again stores nothing: after a run that
    returned, a second run of the same job over the same files, at any time,
    adds no chunk row, and [get_stats] reports what it reported before. *)
Theorem run_backup_again_adds_no_chunk
    (zlib_compress : bytes -> option bytes) (fs : file_system) (clk clk' : clock)
    (db db1 db2 : database) (job id1 id2 : string) (job_row : job_row) :
  select_job db job = Some job_row ->
  run_backup zlib_compress fs clk db job = Returned (Some id1, db1) ->
  run_backup zlib_compress fs clk' db1 job = Returned (Some id2, db2) ->
  chunks db2 = chunks db1 /\ get_stats db2 = get_stats db1.
Proof.
  intros Hjob Hrun1 Hrun2.
  destruct (run_backup_trace zlib_compress fs clk db db1 job id1 job_row Hjob Hrun1)
    as [m1 [_ [_ [_ [_ [Hjobs [_ Hall]]]]]]].
  assert (Hjob1 : select_job db1 job
                  = Some (completed clk
                            (sum_Z (map len (source_chunks fs (job_source_paths job_row))))
                            job_row)).
  { unfold select_job in *.
    rewrite Hjobs, select_job_after_update, String.eqb_refl, Hjob. reflexivity. }
  destruct (run_backup_trace zlib_compress fs clk' db1 db2 job id2 _ Hjob1 Hrun2)
    as [m2 [_ [_ [Hrows _]]]].
  cbn [completed job_source_paths] in Hrows.
  rewrite first_new_all_known in Hrows.
  - rewrite app_nil_r in Hrows. split; [exact Hrows|].
    unfold get_stats. rewrite Hrows. reflexivity.
  - intros x Hx. apply known_digests_of_rows, Hall, Hx.
Qed.

(** X8 on two Monday and Tuesday runs over [files_a_b]. *)
Lemma run_backup_again_adds_no_chunk_witness :
  chunks (tables_after db_a_b
            (run_backup zlib_compress_short files_a_b tuesday_morning db_a_b
                        "bc59759a35c8"))
  = chunks db_a_b /\
  get_stats (tables_after db_a_b
               (run_backup zlib_compress_short files_a_b tuesday_morning db_a_b
                           "bc59759a35c8"))
  = get_stats db_a_b.
Proof.
  exact (run_backup_again_adds_no_chunk zlib_compress_short files_a_b
           monday_morning tuesday_morning fresh_db db_a_b _ "bc59759a35c8"
           "f170005861f7" "bb69547c7d16" docs_job eq_refl
           ltac:(vm_compute; reflexivity) ltac:(vm_compute; reflexivity)).
Defined.

(** X9: [get_stats] counts a digest once however often it is read: after a
    run that returns, the number of chunks, the total size and the compressed
    bytes grow by the count, the lengths and the stored lengths of the chunks
    that got a new row, one per new digest. *)
Theorem get_stats_after_run_backup
    (zlib_compress : bytes -> option bytes) (fs : file_system) (clk : clock)
    (db db' : database) (job id : string) (job_row : job_row) :
  select_job db job = Some job_row ->
  run_backup zlib_compress fs clk db job = Returned (Some id, db') ->
  let news := first_new (map chunk_sha256 (chunks db))
                        (source_chunks fs (job_source_paths job_row)) in
  total_chunks (get_stats db') = total_chunks (get_stats db) + len news /\
  total_size_bytes (get_stats db')
  = total_size_bytes (get_stats db) + sum_Z (map len news) /\
  compressed_bytes (get_stats db')
  = compressed_bytes (get_stats db)
    + sum_Z (map (fun x => len (compressed_or_raw zlib_compress x)) news).
Proof.
  intros Hjob Hrun news.
  destruct (run_backup_trace zlib_compress fs clk db db' job id job_row Hjob Hrun)
    as [manifest [_ [_ [Hrows _]]]].
  fold news in Hrows. unfold get_stats. cbn [total_chunks total_size_bytes compressed_bytes].
  rewrite Hrows, !map_app, !sum_Z_app, !map_map. cbn [new_chunk_row chunk_size chunk_compressed_size].
  split; [|split; reflexivity].
  unfold len. rewrite length_app, length_map. lia.
Qed.

(** X9 on two files of the byte "a": one chunk, one byte, nine stored. *)
Lemma get_stats_after_run_backup_witness :
  total_chunks (get_stats db_a_twice) = total_chunks (get_stats fresh_db) + 1 /\
  total_size_bytes (get_stats db_a_twice)
  = total_size_bytes (get_stats fresh_db) + 1 /\
  compressed_bytes (get_stats db_a_twice)
  = compressed_bytes (get_stats fresh_db) + 9.
Proof.
  exact (get_stats_after_run_backup zlib_compress_short (two_files (encode "a"))
           monday_morning fresh_db db_a_twice "bc59759a35c8" "f170005861f7"
           docs_job eq_refl ltac:(vm_compute; reflexivity)).
Defined.

(** X10: no digest ever has two rows: if every digest has at most one row in
    the chunks table, so it is after any [run_backup], returned or raised. *)
Theorem run_backup_never_duplicates_a_digest
    (zlib_compress : bytes -> option bytes) (fs : file_system) (clk : clock)
    (db : database) (job : string) (d : string) :
  (forall d', (rows_with_digest (chunks db) d' <= 1)%nat) ->
  (rows_with_digest
     (chunks (tables_after db (run_backup zlib_compress fs clk db job))) d <= 1)%nat.
Proof.
  intros H. apply run_backup_keeps_digests_unique, H.
Qed.

Lemma run_backup_never_duplicates_a_digest_witness :
  (rows_with_digest
     (chunks (tables_after db_a_twice
                (run_backup zlib_compress_short files_a_b tuesday_morning
                            db_a_twice "bc59759a35c8"))) digest_a <= 1)%nat.
Proof.
  apply (run_backup_never_duplicates_a_digest zlib_compress_short files_a_b
           tuesday_morning db_a_twice "bc59759a35c8" digest_a).
  intros d'. unfold rows_with_digest. cbn [chunks db_a_twice filter].
  destruct (chunk_sha256 chunk_a =? d')%string; simpl; lia.
Defined.

Lemma new_chunk_row_well_formed (zlib_compress : bytes -> option bytes)
    (content chunk_data : bytes) :
  In chunk_data (file_chunks content) ->
  chunk_row_well_formed (new_chunk_row zlib_compress chunk_data).
Proof.
  intros H. apply read_chunks_sizes in H.
  unfold chunk_row_well_formed, new_chunk_row, len.
  cbn [chunk_id chunk_sha256 chunk_size chunk_references].
  split; [reflexivity|]. split; [lia | reflexivity].
Qed.

(** X11: every row [run_backup] writes has the id "chunk_" followed by the
    first eight digits of its digest, a size between 1 and 4096 and an empty
    [references] column: if all rows of the table are so, they all are after
    any [run_backup]. *)
Theorem run_backup_keeps_rows_well_formed
    (zlib_compress : bytes -> option bytes) (fs : file_system) (clk : clock)
    (db : database) (job : string) :
  Forall chunk_row_well_formed (chunks db) ->
  Forall chunk_row_well_formed
         (chunks (tables_after db (run_backup zlib_compress fs clk db job))).
Proof.
  intros Hwf. destruct (select_job db job) as [job_row|] eqn:Hjob.
  - destruct (run_backup zlib_compress fs clk db job) as [[[id|] db']|e] eqn:Hrun;
      cbn [tables_after]; [| |exact Hwf].
    + destruct (run_backup_trace zlib_compress fs clk db db' job id job_row
                  Hjob Hrun) as [manifest [_ [_ [Hrows _]]]].
      rewrite Hrows. apply Forall_app. split; [exact Hwf|].
      apply Forall_forall. intros c Hc. apply in_map_iff in Hc.
      destruct Hc as [x [<- Hx]]. apply first_new_subset in Hx.
      apply source_chunks_of_file in Hx. destruct Hx as [content [_ Hx]].
      apply (new_chunk_row_well_formed zlib_compress content x Hx).
    + unfold run_backup in Hrun. rewrite Hjob in Hrun.
      destruct (for_each _ _ _); [|discriminate]. cbn [bind] in Hrun.
      destruct (insert_backup _ _); discriminate.
  - unfold run_backup. rewrite Hjob. exact Hwf.
Qed.

(** X11 on the run over [files_a_b] that follows the run over two files of
    the byte "a". *)
Lemma run_backup_keeps_rows_well_formed_witness :
  Forall chunk_row_well_formed
         (chunks (tables_after db_a_twice
                    (run_backup zlib_compress_short files_a_b tuesday_morning
                                db_a_twice "bc59759a35c8"))).
Proof.
  apply (run_backup_keeps_rows_well_formed zlib_compress_short files_a_b
           tuesday_morning db_a_twice "bc59759a35c8").
  constructor; [|constructor].
  split; [reflexivity|].
  split; [vm_compute; split; [reflexivity | discriminate] | reflexivity].
Defined.

(** ** When a run returns and when it raises *)

(** X12: [run_backup] returns a backup id, the first 12 hex digits of the
    MD5 of the job id and the clock reading, when the job is known,
    [Path.exists()] answers and [os.walk] ends for every source path, every
    file under the source paths can be opened and read to its end, no chunk id
    stands for two digests among the stored rows and the chunks read, and no
    backup has that id. *)
Theorem run_backup_returns_an_id
    (zlib_compress : bytes -> option bytes) (fs : file_system) (clk : clock)
    (db : database) (job : string) (job_row : job_row) :
  select_job db job = Some job_row ->
  readable fs (job_source_paths job_row) ->
  ids_tell_digests (chunks db) (source_chunks fs (job_source_paths job_row)) ->
  select_backup db (backup_id_of job clk) = None ->
  exists db',
    run_backup zlib_compress fs clk db job
    = Returned (Some (backup_id_of job clk), db').
Proof.
  apply run_backup_returns.
Qed.

(** X12 on the Tuesday run over [files_a_b], with both chunks stored. *)
Lemma run_backup_returns_an_id_witness :
  exists db',
    run_backup zlib_compress_short files_a_b tuesday_morning db_a_b "bc59759a35c8"
    = Returned (Some (backup_id_of "bc59759a35c8" tuesday_morning), db').
Proof.
  apply (run_backup_returns_an_id zlib_compress_short files_a_b tuesday_morning
           db_a_b "bc59759a35c8" (completed monday_morning 2 docs_job)).
  - reflexivity.
  - split.
    + intros p [<-|[]]. eexists. reflexivity.
    + intros p files file [<-|[]] Hfs Hfile. vm_compute in Hfs.
      injection Hfs as <-. destruct Hfile as [<-|[<-|[]]]; discriminate.
  - assert (Hxs : source_chunks files_a_b ["/data"] = [encode "a"; encode "b"])
      by (vm_compute; reflexivity).
    cbn [completed job_source_paths docs_job]. rewrite Hxs. split.
    + intros c x [<-|[<-|[]]] [<-|[<-|[]]]; vm_compute; intros H;
        first [reflexivity | discriminate H].
    + intros x y [<-|[<-|[]]] [<-|[<-|[]]]; vm_compute; intros H;
        first [reflexivity | discriminate H].
  - vm_compute. reflexivity.
Defined.

Lemma scan_keeps_chunk_key (zlib_compress : bytes -> option bytes)
    (xs : list bytes) (st st' : scan) :
  for_each (scan_chunk zlib_compress) xs st = Returned st' ->
  NoDup (map chunk_id (scan_chunks st)) ->
  NoDup (map chunk_id (scan_chunks st')).
Proof.
  revert st. induction xs as [|x xs IH]; intros st H Hkey.
  - injection H as <-. exact Hkey.
  - simpl in H. destruct (scan_chunk zlib_compress st x) as [st1|e] eqn:E1;
      [|discriminate].
    cbn [bind] in H. apply (IH st1 H). unfold scan_chunk in E1.
    destruct (select_chunk (scan_chunks st) _); [injection E1 as <-; exact Hkey|].
    unfold insert_chunk in E1.
    destruct (existsb _ (scan_chunks st)) eqn:Eid; [discriminate|].
    cbn [bind] in E1. injection E1 as <-. cbn [scan_chunks]. rewrite map_app.
    apply (Permutation_NoDup (Permutation_cons_append _ _)).
    constructor; [|exact Hkey].
    intros Hin. apply in_map_iff in Hin. destruct Hin as [c [Ec Hc]].
    apply not_true_iff_false in Eid. apply Eid, existsb_exists.
    exists c. split; [exact Hc | apply string_eqb_true, Ec].
Qed.

Lemma chunk_id_key_row (rows : list chunk_row) (a b : chunk_row) :
  NoDup (map chunk_id rows) -> In a rows -> In b rows ->
  chunk_id a = chunk_id b -> a = b.
Proof.
  induction rows as [|x rows IH]; simpl; intros Hkey Ha Hb E; [contradiction|].
  apply NoDup_cons_iff in Hkey. destruct Hkey as [Hfresh Hkey].
  destruct Ha as [->|Ha], Hb as [->|Hb]; auto.
  - exfalso. apply Hfresh. rewrite E. apply in_map. exact Hb.
  - exfalso. apply Hfresh. rewrite <- E. apply in_map. exact Ha.
Qed.

Lemma run_backup_some_or_raised (zlib_compress : bytes -> option bytes)
    (fs : file_system) (clk : clock) (db db' : database) (job : string)
    (job_row : job_row) :
  select_job db job = Some job_row ->
  run_backup zlib_compress fs clk db job <> Returned (None, db').
Proof.
  intros Hjob Hrun. unfold run_backup in Hrun. rewrite Hjob in Hrun.
  destruct (for_each _ _ _); [|discriminate]. cbn [bind] in Hrun.
  destruct (insert_backup _ _); discriminate.
Qed.

(** X13: chunk ids keep only eight digits of the digest, so two digests that
    start alike cannot both be stored.  In a table whose ids are made that
    way and are a key, a run that reads a chunk whose digest shares its first
    eight digits with another digest, stored or read in the same run, raises;
    nothing of the run is committed. *)
Theorem run_backup_raises_on_shared_prefix
    (zlib_compress : bytes -> option bytes) (fs : file_system) (clk : clock)
    (db : database) (job : string) (job_row : job_row) (x : bytes) (d : string) :
  select_job db job = Some job_row ->
  (forall c, In c (chunks db) -> chunk_id c = chunk_id_of (chunk_sha256 c)) ->
  NoDup (map chunk_id (chunks db)) ->
  In x (source_chunks fs (job_source_paths job_row)) ->
  In d (map Hashlib.sha256_hexdigest (source_chunks fs (job_source_paths job_row)))
  \/ In d (map chunk_sha256 (chunks db)) ->
  d <> Hashlib.sha256_hexdigest x ->
  chunk_id_of d = chunk_id_of (Hashlib.sha256_hexdigest x) ->
  exists e, run_backup zlib_compress fs clk db job = Raised e.
Proof.
  intros Hjob Hform Hkey Hx Hd Hne Hid.
  destruct (run_backup zlib_compress fs clk db job) as [[[id|] db']|e] eqn:Hrun;
    [exfalso | exfalso | exists e; reflexivity].
  - destruct (run_backup_trace zlib_compress fs clk db db' job id job_row Hjob Hrun)
      as [manifest [_ [_ [Hrows [_ [_ [_ Hall]]]]]]].
    assert (Hkey' : NoDup (map chunk_id (chunks db'))).
    { unfold run_backup in Hrun. rewrite Hjob in Hrun.
      destruct (for_each (scan_source zlib_compress fs) _ _) as [st|e] eqn:Escan;
        [|discriminate].
      cbn [bind] in Hrun. destruct (insert_backup _ _); [|discriminate].
      cbn [bind] in Hrun. injection Hrun as _ <-. cbn [chunks].
      apply scan_sources_flat in Escan.
      apply (scan_keeps_chunk_key zlib_compress _ _ st Escan). exact Hkey. }
    assert (Hform' : forall c, In c (chunks db') ->
                               chunk_id c = chunk_id_of (chunk_sha256 c)).
    { intros c Hc. rewrite Hrows in Hc. apply in_app_or in Hc.
      destruct Hc as [Hc|Hc]; [apply Hform, Hc|].
      apply in_map_iff in Hc. destruct Hc as [y [<- _]]. reflexivity. }
    assert (Hrow : forall d',
               select_chunk (chunks db') d' <> None ->
               exists c, In c (chunks db') /\ chunk_sha256 c = d').
    { intros d' Hsel. unfold select_chunk in Hsel.
      destruct (find _ (chunks db')) as [c|] eqn:Ef; [|contradiction].
      apply find_some in Ef. exists c. rewrite string_eqb_true in Ef. exact Ef. }
    destruct (Hrow _ (Hall x Hx)) as [cx [Hcx Ecx]].
    assert (Hcd : exists c, In c (chunks db') /\ chunk_sha256 c = d).
    { destruct Hd as [Hd|Hd].
      - apply in_map_iff in Hd. destruct Hd as [y [<- Hy]].
        apply Hrow, Hall, Hy.
      - apply in_map_iff in Hd. destruct Hd as [c [<- Hc]].
        exists c. split; [rewrite Hrows; apply in_or_app; left; exact Hc|reflexivity]. }
    destruct Hcd as [cd [Hcd Ecd]].
    assert (cd = cx).
    { apply (chunk_id_key_row (chunks db')); auto.
      rewrite (Hform' cd Hcd), (Hform' cx Hcx), Ecd, Ecx. exact Hid. }
    subst cd. apply Hne. rewrite <- Ecd, Ecx. reflexivity.
  - exact (run_backup_some_or_raised zlib_compress fs clk db db' job job_row
             Hjob Hrun).
Qed.

(** X13 on two files whose chunks "a7ex" and "c5kt" have digests that both
    start with 7aaa05d6. *)
Lemma run_backup_raises_on_shared_prefix_witness :
  exists e,
    run_backup zlib_compress_short files_same_prefix monday_morning fresh_db
               "bc59759a35c8" = Raised e.
Proof.
  apply (run_backup_raises_on_shared_prefix zlib_compress_short files_same_prefix
           monday_morning fresh_db "bc59759a35c8" docs_job (encode "a7ex")
           (Hashlib.sha256_hexdigest (encode "c5kt"))).
  - reflexivity.
  - intros c [].
  - constructor.
  - vm_compute. left. reflexivity.
  - left. vm_compute. right. left. reflexivity.
  - vm_compute. discriminate.
  - vm_compute. reflexivity.
Defined.

(** X14: the backup id depends on the job id and the clock reading only:
    when the backups table already holds that id (a second run of the job at
    the same reading), [run_backup] raises and commits nothing. *)
Theorem run_backup_raises_on_known_backup_id
    (zlib_compress : bytes -> option bytes) (fs : file_system) (clk : clock)
    (db : database) (job : string) (job_row : job_row) :
  select_job db job = Some job_row ->
  select_backup db (backup_id_of job clk) <> None ->
  exists e, run_backup zlib_compress fs clk db job = Raised e.
Proof.
  intros Hjob Hknown. unfold run_backup. rewrite Hjob.
  destruct (for_each _ _ _) as [st|e]; [|exists e; reflexivity].
  cbn [bind]. unfold insert_backup. cbn [backup_id].
  destruct (existsb _ (backups db)) eqn:E; [eexists; reflexivity|].
  exfalso. apply Hknown. unfold select_backup.
  destruct (find _ (backups db)) as [b|] eqn:Ef; [|reflexivity].
  apply not_true_iff_false in E. exfalso. apply E.
  apply find_some_iff_exists. exists b. exact Ef.
Qed.

(** X14 on a second run at the readings of the first. *)
Lemma run_backup_raises_on_known_backup_id_witness :
  exists e,
    run_backup zlib_compress_short files_a_b monday_morning db_a_b "bc59759a35c8"
    = Raised e.
Proof.
  apply (run_backup_raises_on_known_backup_id zlib_compress_short files_a_b
           monday_morning db_a_b "bc59759a35c8" (completed monday_morning 2 docs_job)).
  - reflexivity.
  - vm_compute. discriminate.
Defined.

Lemma scan_sources_returned_readable (zlib_compress : bytes -> option bytes)
    (fs : file_system) (paths : list string) (st st' : scan) :
  for_each (scan_source zlib_compress fs) paths st = Returned st' ->
  readable fs paths.
Proof.
  revert st. induction paths as [|p paths IH]; intros st H;
    [split; [intros q [] | intros q files f []]|].
  simpl in H. destruct (scan_source zlib_compress fs st p) as [st1|e] eqn:E1;
    [|discriminate].
  cbn [bind] in H. destruct (IH st1 H) as [Hstat Hopen]. split.
  { intros q [<-|Hq]; [|exact (Hstat q Hq)].
    unfold scan_source in E1.
    destruct (fs p) as [found|e]; [exists found; reflexivity | discriminate]. }
  intros q files f Hq Hfs Hf.
  destruct Hq as [<-|Hq]; [|apply (Hopen q files f Hq Hfs Hf)].
  unfold scan_source in E1. rewrite Hfs in E1. cbn [bind] in E1. clear - E1 Hf.
  revert st E1. induction files as [|g files IHf]; intros st E1; [contradiction|].
  simpl in E1. destruct (scan_file zlib_compress st g) as [st2|e] eqn:E2;
    [|discriminate].
  cbn [bind] in E1. destruct Hf as [<-|Hf]; [|apply (IHf Hf st2 E1)].
  unfold scan_file in E2. destruct (snd g); [discriminate | discriminate E2].
Qed.

(** X15: one file that cannot be opened aborts the run: when a source path
    of the job holds such a file, [run_backup] raises, and no backup, chunk or
    job update of the run is committed. *)
Theorem run_backup_raises_on_unreadable_file
    (zlib_compress : bytes -> option bytes) (fs : file_system) (clk : clock)
    (db : database) (job : string) (job_row : job_row)
    (src_path : string) (files : list (string * option bytes))
    (file : string * option bytes) :
  select_job db job = Some job_row ->
  In src_path (job_source_paths job_row) ->
  fs src_path = Returned (Some files) ->
  In file files ->
  snd file = None ->
  (exists e, run_backup zlib_compress fs clk db job = Raised e) /\
  tables_after db (run_backup zlib_compress fs clk db job) = db.
Proof.
  intros Hjob Hp Hfs Hf Hnone.
  assert (H : exists e, run_backup zlib_compress fs clk db job = Raised e).
  { unfold run_backup. rewrite Hjob.
    destruct (for_each (scan_source zlib_compress fs) _ _) as [st|e] eqn:Escan;
      [|exists e; reflexivity].
    exfalso. apply scan_sources_returned_readable in Escan.
    destruct Escan as [_ Hopen].
    apply (Hopen src_path files file Hp Hfs Hf Hnone). }
  split; [exact H|]. destruct H as [e ->]. reflexivity.
Qed.

(** X15 on a directory with a readable file and one that cannot be opened. *)
Lemma run_backup_raises_on_unreadable_file_witness :
  (exists e,
      run_backup zlib_compress_short files_unreadable monday_morning fresh_db
                 "bc59759a35c8" = Raised e) /\
  tables_after fresh_db
    (run_backup zlib_compress_short files_unreadable monday_morning fresh_db
                "bc59759a35c8") = fresh_db.
Proof.
  apply (run_backup_raises_on_unreadable_file zlib_compress_short files_unreadable
           monday_morning fresh_db "bc59759a35c8" docs_job "/data"
           [("/data/one.txt", Some (encode "a")); ("/data/locked.txt", None)]
           ("/data/locked.txt", None)).
  - reflexivity.
  - left. reflexivity.
  - reflexivity.
  - right. left. reflexivity.
  - reflexivity.
Defined.

(** ** prune at its edges *)

Lemma filter_none_deleted (rows : list backup_row) :
  filter (fun b => negb (id_in [] b)) rows = rows.
Proof.
  induction rows as [|b rows IH]; simpl; [reflexivity|]. f_equal. exact IH.
Qed.

Lemma length_order_by (rows : list backup_row) :
  length (order_by_timestamp_desc rows) = length rows.
Proof. apply Permutation_length, order_by_perm. Qed.

Lemma prune_nothing (db : database) (job : string) (kd kw km : Z) :
  0 <= kd + kw + km ->
  len (filter (fun b => (backup_job_id b =? job)%string) (backups db))
  <= kd + kw + km ->
  prune db job kd kw km = (0, db).
Proof.
  intros Hsum Hfew.
  destruct (prune_backups db job kd kw km) as [ids [E Hids]].
  rewrite slice_from_nonneg in Hids by exact Hsum.
  rewrite skipn_all2 in Hids
    by (rewrite length_map, length_order_by; unfold len in Hfew; lia).
  subst ids. rewrite E, filter_none_deleted. destruct db. reflexivity.
Qed.

(** X16: [prune] is a no-op when the job has no more backups than the
    keep-counts add up to (in particular for a job without backups): it
    returns 0 and the tables are what they were. *)
Theorem prune_with_few_backups (db : database) (job : string)
    (keep_daily keep_weekly keep_monthly : Z) :
  0 <= keep_daily + keep_weekly + keep_monthly ->
  len (filter (fun b => (backup_job_id b =? job)%string) (backups db))
  <= keep_daily + keep_weekly + keep_monthly ->
  prune db job keep_daily keep_weekly keep_monthly = (0, db).
Proof.
  apply prune_nothing.
Qed.

(** X16 on [week_db] with the default keep-counts 7, 4 and 12. *)
Lemma prune_with_few_backups_witness :
  prune week_db "bc59759a35c8" 7 4 12 = (0, week_db).
Proof.
  apply (prune_with_few_backups week_db "bc59759a35c8" 7 4 12);
    vm_compute; discriminate.
Defined.

Lemma job_backups_after_delete (ids : list string) (rows : list backup_row)
    (job : string) :
  filter (fun b => (backup_job_id b =? job)%string)
         (filter (fun b => negb (id_in ids b)) rows)
  = filter (fun b => negb (id_in ids b))
           (filter (fun b => (backup_job_id b =? job)%string) rows).
Proof.
  rewrite !filter_filter. apply filter_ext. intros b. apply andb_comm.
Qed.

(** X17: [prune] is idempotent: with keep-counts of non-negative sum, a
    second [prune] of the same job with the same counts deletes nothing and
    returns 0. *)
Theorem prune_twice (db : database) (job : string)
    (keep_daily keep_weekly keep_monthly : Z) :
  NoDup (map backup_id (backups db)) ->
  0 <= keep_daily + keep_weekly + keep_monthly ->
  let db' := snd (prune db job keep_daily keep_weekly keep_monthly) in
  prune db' job keep_daily keep_weekly keep_monthly = (0, db').
Proof.
  intros Hkey Hsum db'. apply prune_nothing; [exact Hsum|].
  subst db'.
  destruct (prune_backups db job keep_daily keep_weekly keep_monthly)
    as [ids [E Hids]].
  rewrite E. cbn [snd backups]. rewrite job_backups_after_delete.
  rewrite slice_from_nonneg in Hids by exact Hsum.
  set (mine := filter (fun b => (backup_job_id b =? job)%string) (backups db)) in *.
  assert (Hmine : NoDup (map backup_id mine)) by (apply backup_id_key_filter, Hkey).
  assert (Hperm : Permutation (map backup_id (order_by_timestamp_desc mine))
                              (map backup_id mine))
    by (apply Permutation_map, order_by_perm).
  assert (Hdel : len (filter (id_in ids) mine) = len ids).
  { apply length_filter_id_in; [exact Hmine| |].
    - subst ids. apply NoDup_skipn.
      apply (Permutation_NoDup (Permutation_sym Hperm) Hmine).
    - subst ids. intros id Hid.
      apply (Permutation_in _ Hperm).
      rewrite <- (firstn_skipn (Z.to_nat (keep_daily + keep_weekly + keep_monthly))).
      apply in_or_app. right. exact Hid. }
  pose proof (length_filter_split (fun b => negb (id_in ids b)) mine) as Hsplit.
  rewrite (filter_ext (fun b => negb (negb (id_in ids b))) (id_in ids)) in Hsplit
    by (intros b; apply negb_involutive).
  assert (Hlen : len ids
                 = len mine - Z.of_nat (Nat.min (Z.to_nat (keep_daily + keep_weekly + keep_monthly))
                                                (length mine))).
  { subst ids. unfold len. rewrite length_skipn, length_map, length_order_by. lia. }
  lia.
Qed.

(** X17 on [week_db] with keep-counts 1, 1 and 0. *)
Lemma prune_twice_witness :
  prune (snd (prune week_db "bc59759a35c8" 1 1 0)) "bc59759a35c8" 1 1 0
  = (0, snd (prune week_db "bc59759a35c8" 1 1 0)).
Proof.
  assert (Hkey : NoDup (map backup_id (backups week_db))).
  { repeat constructor; simpl; intuition discriminate. }
  exact (prune_twice week_db "bc59759a35c8" 1 1 0 Hkey
           ltac:(vm_compute; discriminate)).
Defined.

(** X18: keep-counts of negative sum do not empty the job: the slice
    [backups[n:]] with n < 0 takes the last -n ids, so [prune] deletes the -n
    oldest backups of the job (all of them when there are fewer) and returns
    their number. *)
Theorem prune_negative_keep_counts (db : database) (job : string)
    (keep_daily keep_weekly keep_monthly : Z) :
  keep_daily + keep_weekly + keep_monthly < 0 ->
  let newest :=
    order_by_timestamp_desc
      (filter (fun b => (backup_job_id b =? job)%string) (backups db)) in
  let oldest :=
    skipn (Z.to_nat (len newest + (keep_daily + keep_weekly + keep_monthly)))
          newest in
  prune db job keep_daily keep_weekly keep_monthly
  = (Z.min (- (keep_daily + keep_weekly + keep_monthly)) (len newest),
     {| jobs := jobs db;
        backups := filter (fun b => negb (id_in (map backup_id oldest) b))
                          (backups db);
        chunks := chunks db |}).
Proof.
  intros Hneg newest oldest.
  destruct (prune_backups db job keep_daily keep_weekly keep_monthly)
    as [ids [E Hids]].
  fold newest in Hids. unfold slice_from in Hids.
  apply Z.ltb_lt in Hneg. rewrite Hneg in Hids. apply Z.ltb_lt in Hneg.
  assert (Hl : len (map backup_id newest) = len newest)
    by (unfold len; rewrite length_map; reflexivity).
  rewrite Hl, skipn_map in Hids. fold oldest in Hids.
  rewrite E. subst ids. f_equal.
  unfold len, oldest. rewrite length_map, length_skipn. unfold len. lia.
Qed.

(** X18 on [week_db] with keep-counts 0, 0 and -1: the Monday backup goes. *)
Lemma prune_negative_keep_counts_witness :
  prune week_db "bc59759a35c8" 0 0 (-1)
  = (Z.min (- (0 + 0 + -1)) 3,
     {| jobs := jobs week_db;
        backups := [other_job_backup; tuesday_backup; wednesday_backup];
        chunks := chunks week_db |}).
Proof.
  exact (prune_negative_keep_counts week_db "bc59759a35c8" 0 0 (-1)
           ltac:(vm_compute; reflexivity)).
Defined.

(** ** create_job *)

Lemma create_job_inv (now : Z) (db db' : database) (name id : string)
    (source_paths : list string) (destination : string)
    (exclude_patterns : option (list string)) (compression schedule : string) :
  create_job now db name source_paths destination exclude_patterns compression
             schedule = Returned (id, db') ->
  id = substring 0 12
         (Hashlib.md5_hexdigest (encode (name ++ Datetime.isoformat now)%string)) /\
  select_job db id = None /\
  db' = {| jobs :=
             jobs db ++
             [{| job_id := id; job_name := name;
                 job_source_paths := source_paths;
                 job_exclude_patterns :=
                   match exclude_patterns with
                   | Some patterns => patterns
                   | None => []
                   end;
                 job_destination := destination; job_schedule := schedule;
                 job_compression := compression; job_last_run := None;
                 job_size_bytes := 0; job_status := "idle" |}];
           backups := backups db;
           chunks := chunks db |}.
Proof.
  unfold create_job. intros H.
  destruct (existsb _ (jobs db)) eqn:E; [discriminate|].
  injection H as <- <-. split; [reflexivity|]. split; [|reflexivity].
  unfold select_job. destruct (find _ (jobs db)) as [j|] eqn:Ef; [|reflexivity].
  apply not_true_iff_false in E. exfalso. apply E.
  apply find_some_iff_exists. exists j. exact Ef.
Qed.

Lemma select_job_after_insert (db : database) (j : job_row) (other : string) :
  select_job {| jobs := jobs db ++ [j]; backups := backups db; chunks := chunks db |}
             other
  = match select_job db other with
    | Some found => Some found
    | None => if (job_id j =? other)%string then Some j else None
    end.
Proof.
  unfold select_job. cbn [jobs].
  destruct (find _ (jobs db)) as [found|] eqn:Ef.
  - apply find_app_some, Ef.
  - rewrite (find_app_none _ _ _ Ef). reflexivity.
Qed.

(** X19: a job that [create_job] returned an id for can be looked up under
    that id, idle, never run, of size 0, with the paths, destination,
    schedule and compression given and the exclusion patterns given or none;
    the other jobs, the backups and the chunks are untouched, and a
    [run_backup] of the id does not answer [None]. *)
Theorem create_job_then_lookup (now : Z) (db db' : database) (name id : string)
    (source_paths : list string) (destination : string)
    (exclude_patterns : option (list string)) (compression schedule : string) :
  create_job now db name source_paths destination exclude_patterns compression
             schedule = Returned (id, db') ->
  select_job db' id
  = Some {| job_id := id; job_name := name;
            job_source_paths := source_paths;
            job_exclude_patterns :=
              match exclude_patterns with
              | Some patterns => patterns
              | None => []
              end;
            job_destination := destination; job_schedule := schedule;
            job_compression := compression; job_last_run := None;
            job_size_bytes := 0; job_status := "idle" |} /\
  (forall other, other <> id -> select_job db' other = select_job db other) /\
  backups db' = backups db /\
  chunks db' = chunks db /\
  (forall zlib_compress fs clk db'',
      run_backup zlib_compress fs clk db' id <> Returned (None, db'')).
Proof.
  intros H. apply create_job_inv in H. destruct H as [_ [Hnew ->]].
  split; [|split; [|split; [reflexivity|split; [reflexivity|]]]].
  - rewrite select_job_after_insert, Hnew. cbn [job_id].
    rewrite String.eqb_refl. reflexivity.
  - intros other Hne. rewrite select_job_after_insert.
    destruct (select_job db other); [reflexivity|]. cbn [job_id].
    apply not_eq_sym, string_eqb_false in Hne. rewrite Hne. reflexivity.
  - intros zlib_compress fs clk db''.
    eapply run_backup_some_or_raised.
    rewrite select_job_after_insert, Hnew. cbn [job_id].
    rewrite String.eqb_refl. reflexivity.
Qed.

(** X19 on the creation of the job "docs". *)
Lemma create_job_then_lookup_witness :
  select_job fresh_db "bc59759a35c8" = Some docs_job /\
  (forall other, other <> "bc59759a35c8" ->
                 select_job fresh_db other = select_job empty_db other) /\
  backups fresh_db = backups empty_db /\
  chunks fresh_db = chunks empty_db /\
  (forall zlib_compress fs clk db'',
      run_backup zlib_compress fs clk fresh_db "bc59759a35c8"
      <> Returned (None, db'')).
Proof.
  exact (create_job_then_lookup 1709542800000321 empty_db fresh_db "docs"
           "bc59759a35c8" ["/data"] "/backups" None "lz4" "daily"
           ltac:(vm_compute; reflexivity)).
Defined.

(** X20: the job id depends on the name and the clock reading only: after a
    [create_job] that returned, a second one with the same name at the same
    reading raises IntegrityError, whatever its other arguments, and inserts
    nothing. *)
Theorem create_job_twice (now : Z) (db db' : database) (name id : string)
    (source_paths source_paths' : list string) (destination destination' : string)
    (exclude_patterns exclude_patterns' : option (list string))
    (compression compression' schedule schedule' : string) :
  create_job now db name source_paths destination exclude_patterns compression
             schedule = Returned (id, db') ->
  create_job now db' name source_paths' destination' exclude_patterns'
             compression' schedule' = Raised IntegrityError.
Proof.
  intros H. apply create_job_inv in H. destruct H as [Hid [_ ->]].
  unfold create_job. cbn [jobs]. rewrite <- Hid.
  rewrite existsb_app. cbn [existsb job_id]. rewrite String.eqb_refl.
  rewrite orb_true_r. reflexivity.
Qed.

Lemma create_job_twice_witness :
  create_job 1709542800000321 fresh_db "docs" ["/srv"] "/mnt" (Some ["*.tmp"])
             "zlib" "weekly" = Raised IntegrityError.
Proof.
  exact (create_job_twice 1709542800000321 empty_db fresh_db "docs"
           "bc59759a35c8" ["/data"] ["/srv"] "/backups" "/mnt" None
           (Some ["*.tmp"]) "lz4" "zlib" "daily" "weekly"
           ltac:(vm_compute; reflexivity)).
Defined.

(** ** list_backups after a run *)

Lemma list_backups_entries (fromtimestamp_isoformat : Z -> string)
    (db : database) (job : option string) (entry : backup_info) :
  In entry (list_backups fromtimestamp_isoformat db job) <->
  exists row,
    In row (backups db) /\
    (forall j, job = Some j -> j <> "" -> backup_job_id row = j) /\
    entry = info_of_row fromtimestamp_isoformat row.
Proof.
  unfold list_backups, list_backups_rows. rewrite in_map_iff.
  assert (Hin : forall rows row,
             In row (order_by_timestamp_desc rows) <-> In row rows).
  { intros rows row. split; apply Permutation_in;
      [apply order_by_perm | apply Permutation_sym, order_by_perm]. }
  destruct job as [j|]; [destruct (j =? "")%string eqn:Ej|].
  - apply string_eqb_true in Ej. subst j. split.
    + intros [row [E H]]. exists row. rewrite Hin in H.
      split; [exact H|]. split; [|auto]. intros j Hj Hne. injection Hj as <-.
      exfalso. apply Hne. reflexivity.
    + intros [row [H [_ E]]]. exists row. rewrite Hin. auto.
  - apply string_eqb_false in Ej. split.
    + intros [row [E H]]. exists row. rewrite Hin, filter_In, string_eqb_true in H.
      destruct H as [H Hj]. split; [exact H|]. split; [|auto].
      intros j' Hj'. injection Hj' as <-. auto.
    + intros [row [H [Hj E]]]. exists row. rewrite Hin, filter_In, string_eqb_true.
      split; [auto|]. split; [exact H|]. apply Hj; auto.
  - split.
    + intros [row [E H]]. exists row. rewrite Hin in H.
      split; [exact H|]. split; [|auto]. discriminate.
    + intros [row [H [_ E]]]. exists row. rewrite Hin. auto.
Qed.

(** X21: a run that returns adds exactly one entry to [list_backups], for
    all jobs and for its own job: the entry of the new backup, with the id
    returned, the job id, the text the host's [fromtimestamp] and
    [isoformat] give for the timestamp the run stored, and the number of bytes
    read; the entries listed before stay listed. *)
Theorem list_backups_after_run_backup
    (zlib_compress : bytes -> option bytes) (fs : file_system) (clk : clock)
    (fromtimestamp_isoformat : Z -> string)
    (db db' : database) (job id : string) (job_row : job_row) :
  select_job db job = Some job_row ->
  run_backup zlib_compress fs clk db job = Returned (Some id, db') ->
  exists new_entry,
    info_id new_entry = id /\
    info_job_id new_entry = job /\
    info_timestamp new_entry = fromtimestamp_isoformat (utcnow_backup clk) /\
    info_size_bytes new_entry
    = sum_Z (map len (source_contents fs (job_source_paths job_row))) /\
    (forall entry,
        In entry (list_backups fromtimestamp_isoformat db' None) <->
        In entry (list_backups fromtimestamp_isoformat db None)
        \/ entry = new_entry) /\
    (forall entry,
        In entry (list_backups fromtimestamp_isoformat db' (Some job)) <->
        In entry (list_backups fromtimestamp_isoformat db (Some job))
        \/ entry = new_entry).
Proof.
  intros Hjob Hrun.
  destruct (run_backup_trace zlib_compress fs clk db db' job id job_row Hjob Hrun)
    as [manifest [_ [_ [_ [Hbk _]]]]].
  rewrite source_chunks_bytes in Hbk.
  eexists (info_of_row fromtimestamp_isoformat _).
  cbn [info_of_row info_id info_job_id info_timestamp info_size_bytes].
  split; [|split; [|split; [|split; [|split]]]].
  5,6: intros entry; rewrite !list_backups_entries, Hbk; split.
  5,7: intros [row [Hin [Hj E]]]; apply in_app_or in Hin;
       destruct Hin as [Hin|[<-|[]]];
       [left; exists row; auto | right; exact E].
  5,6: intros [[row [Hin [Hj E]]]|E];
       [exists row; split; [apply in_or_app; left; exact Hin | auto]
       |eexists; split; [apply in_or_app; right; left; reflexivity|];
        split; [|exact E]].
  all: cbn [backup_id backup_job_id backup_timestamp backup_size_bytes];
       try reflexivity.
  - discriminate.
  - intros j Hj _. injection Hj as <-. reflexivity.
Qed.

(** X21 on the Monday run over [files_a_b], listed on a host in UTC. *)
Lemma list_backups_after_run_backup_witness :
  exists new_entry,
    info_id new_entry = "f170005861f7" /\
    info_job_id new_entry = "bc59759a35c8" /\
    info_timestamp new_entry = Datetime.isoformat (utcnow_backup monday_morning) /\
    info_size_bytes new_entry = 2 /\
    (forall entry,
        In entry (list_backups Datetime.isoformat db_a_b None) <->
        In entry (list_backups Datetime.isoformat fresh_db None)
        \/ entry = new_entry) /\
    (forall entry,
        In entry (list_backups Datetime.isoformat db_a_b (Some "bc59759a35c8")) <->
        In entry (list_backups Datetime.isoformat fresh_db (Some "bc59759a35c8"))
        \/ entry = new_entry).
Proof.
  exact (list_backups_after_run_backup zlib_compress_short files_a_b
           monday_morning Datetime.isoformat fresh_db db_a_b "bc59759a35c8"
           "f170005861f7" docs_job eq_refl ltac:(vm_compute; reflexivity)).
Defined.

(** ** The command line *)

(** X22: [main] never gets to its arguments.  Its first statement builds the
    engine, and [_init_db] raises [sqlite3.OperationalError] at its third
    [CREATE TABLE], which names a column [references]; when the directory of
    the database cannot be made the constructor raises before that.  So every
    command line, on every state of the tables, ends in an exception: no job
    is created, no backup run, and no line printed, the usage line
    included. *)
Theorem main_raises_in_the_constructor
    (zlib_compress : bytes -> option bytes) (format_2f : Q -> string)
    (host : output_host) (make_db_dir : outcome unit)
    (fs : file_system) (now : Z) (clk : clock) (argv : list string)
    (db : database) :
  create_table_if_not_exists jobs_columns = Returned tt /\
  create_table_if_not_exists backups_columns = Returned tt /\
  create_table_if_not_exists chunks_columns = Raised OperationalError /\
  main zlib_compress format_2f host make_db_dir fs now clk argv db
  = match make_db_dir with
    | Returned _ => Raised OperationalError
    | Raised e => Raised e
    end.
Proof.
  split; [vm_compute; reflexivity|].
  split; [vm_compute; reflexivity|].
  split; [vm_compute; reflexivity|].
  unfold main, BackupEngine.
  replace _init_db with (@Raised unit OperationalError)
    by (vm_compute; reflexivity).
  destruct make_db_dir; reflexivity.
Qed.

(** ** Source paths that are not there *)

Lemma scan_missing_sources (zlib_compress : bytes -> option bytes)
    (fs : file_system) (paths : list string) (st : scan) :
  (forall p, In p paths -> fs p = Returned None) ->
  for_each (scan_source zlib_compress fs) paths st = Returned st.
Proof.
  induction paths as [|p paths IH]; intros H; [reflexivity|].
  simpl. unfold scan_source at 1. rewrite (H p (or_introl eq_refl)).
  cbn [bind]. apply IH. intros q Hq. apply H. right. exact Hq.
Qed.

(** X25: source paths for which [Path.exists()] answers [False] are skipped
    without a word: when it does so for every path of the job, [run_backup]
    still returns a backup id, records a backup of size 0 with ratio 0 and an
    empty manifest, marks the job "completed" with size 0 and leaves the
    chunks table alone. *)
Theorem run_backup_of_missing_sources
    (zlib_compress : bytes -> option bytes) (fs : file_system) (clk : clock)
    (db : database) (job : string) (job_row : job_row) :
  select_job db job = Some job_row ->
  (forall p, In p (job_source_paths job_row) -> fs p = Returned None) ->
  select_backup db (backup_id_of job clk) = None ->
  run_backup zlib_compress fs clk db job
  = Returned
      (Some (backup_id_of job clk),
       {| jobs :=
            map (fun j => if (job_id j =? job)%string then completed clk 0 j else j)
                (jobs db);
          backups :=
            backups db ++
            [{| backup_id := backup_id_of job clk; backup_job_id := job;
                backup_timestamp := utcnow_backup clk; backup_size_bytes := 0;
                backup_dedup_ratio := 0%Q; backup_chunk_ids := [] |}];
          chunks := chunks db |}).
Proof.
  intros Hjob Hmissing Hnew. unfold run_backup. rewrite Hjob.
  rewrite scan_missing_sources by exact Hmissing.
  cbn [bind total_size compressed_size chunks_used scan_chunks Z.ltb Z.compare].
  unfold insert_backup. cbn [backup_id].
  destruct (existsb _ (backups db)) eqn:E.
  - exfalso. apply find_some_iff_exists in E. destruct E as [b Hb].
    unfold select_backup in Hnew. congruence.
  - reflexivity.
Qed.

(** X25 when [/data] is not there. *)
Lemma run_backup_of_missing_sources_witness :
  run_backup zlib_compress_short (fun _ => Returned None) monday_morning
             fresh_db "bc59759a35c8"
  = Returned
      (Some "f170005861f7",
       {| jobs := [completed monday_morning 0 docs_job];
          backups :=
            [{| backup_id := "f170005861f7"; backup_job_id := "bc59759a35c8";
                backup_timestamp := 1709546400004567; backup_size_bytes := 0;
                backup_dedup_ratio := 0%Q; backup_chunk_ids := [] |}];
          chunks := [] |}).
Proof.
  exact (run_backup_of_missing_sources zlib_compress_short
           (fun _ => Returned None)
           monday_morning fresh_db "bc59759a35c8" docs_job eq_refl
           (fun _ _ => eq_refl) ltac:(vm_compute; reflexivity)).
Defined.
